(** * Democracy Analyzer: indicator scorer, example labeler, vectorizer and
      classifier contract

    A shallow embedding of the core of the repository

      - [analyzeSentiment], [analyzeText] and [extractTrainingData] of
        [src/nlp.ts],
      - [INDICATORS], the module [./indicators] (in the sources at hand it
        follows the extractor in [src/pdfExtractor.ts], lines 286-332),
      - [PDFExtractor.extractText] and [PDFExtractor.extractTrainingData] of
        [src/pdfExtractor.ts],
      - [mlStorage.storeTrainingData], the module [./supabase] (in the
        sources at hand the end of [src/pdfExtractor.ts], lines 438-468),
      - [AuthoritarianClassifier], the module [./ml] (in the sources at hand
        it follows the user interface in [src/App.tsx], lines 718-1161),

    followed by the properties of the specification that were checked against
    it.

    Conventions of the embedding.

    - A JavaScript string is a sequence of UTF-16 code units.  Texts are
      embedded as [string], one [ascii] per code unit, which covers the code
      units below 256 (ASCII and Latin-1).  Character classes, case mapping
      and white space are those of ECMAScript restricted to that range.
    - A JavaScript number is an IEEE 754 binary64 value: sentiment, labels and
      probabilities are [float] (the kernel's binary64 numbers, rounding to
      nearest even as JavaScript does).  Numbers that the code only ever uses
      as small integers (scores, lengths, indices, token counts) are [Z], [N]
      or [nat].
    - TensorFlow.js is outside the repository: building a network, fitting it
      and running a forward pass are taken as the outcome the library
      produced, passed to the operation that triggers it.
    - Persistence (Supabase) is best effort and off unless configured
      ([isSupabaseConfigured] is false for the placeholder settings); the
      embedding is that of [useSupabase = false]. *)

From Stdlib Require Import String Ascii List Bool Arith NArith ZArith Lia.
From Stdlib Require Import PrimFloat Uint63 DecimalString.
From Stdlib Require Import SpecFloat FloatOps FloatAxioms.
Import ListNotations.

Set Warnings "-inexact-float".

(* ===================================================================== *)
(** ** ECMAScript strings restricted to code units below 256 *)
(* ===================================================================== *)

Module JS.

Definition code (c : ascii) : N := N_of_ascii c.

Definition between (lo hi : N) (c : ascii) : bool :=
  (N.leb lo (code c) && N.leb (code c) hi)%bool.

(** [\w] without the unicode flag: [A-Za-z0-9_]. *)
Definition isWordChar (c : ascii) : bool :=
  (between 48 57 c || between 65 90 c || N.eqb (code c) 95
   || between 97 122 c)%bool.

(** [\s], and what [String.prototype.trim] strips: TAB, LF, VT, FF, CR, SP
    and NBSP are the white space and line terminator code units below 256. *)
Definition isWhiteSpace (c : ascii) : bool :=
  (between 9 13 c || N.eqb (code c) 32 || N.eqb (code c) 160)%bool.

Definition shiftCode (c : ascii) (f : N -> N) : ascii := ascii_of_N (f (code c)).

(** [toLowerCase] on one code unit: A-Z, and the Latin-1 capitals
    U+00C0..U+00DE except the multiplication sign U+00D7. *)
Definition lowerChar (c : ascii) : ascii :=
  if (between 65 90 c
      || (between 192 222 c && negb (N.eqb (code c) 215)))%bool
  then shiftCode c (fun n => n + 32)%N
  else c.

(** The [Canonicalize] operation of a case-insensitive regular expression
    without the unicode flag: the upper case of the code unit, unless that
    leaves the code unit range modelled here or maps a non-ASCII code unit
    to ASCII.  a-z, and U+00E0..U+00FE except the division sign U+00F7. *)
Definition canonicalize (c : ascii) : ascii :=
  if (between 97 122 c
      || (between 224 254 c && negb (N.eqb (code c) 247)))%bool
  then shiftCode c (fun n => n - 32)%N
  else c.

Definition chars (s : string) : list ascii := list_ascii_of_string s.
Definition str (l : list ascii) : string := string_of_list_ascii l.

Definition toLowerCase (s : string) : string := str (map lowerChar (chars s)).

Fixpoint dropWhile {A} (p : A -> bool) (l : list A) : list A :=
  match l with
  | [] => []
  | x :: r => if p x then dropWhile p r else l
  end.

Definition trimChars (l : list ascii) : list ascii :=
  rev (dropWhile isWhiteSpace (rev (dropWhile isWhiteSpace l))).

Definition trim (s : string) : string := str (trimChars (chars s)).

(** [s.substring(start, end)] for [0 <= start <= end]. *)
Definition substring (s : list ascii) (start stop : nat) : list ascii :=
  firstn (stop - start) (skipn start s).

Fixpoint isPrefix (p s : list ascii) : bool :=
  match p, s with
  | [], _ => true
  | _ :: _, [] => false
  | a :: p', b :: s' => (Ascii.eqb a b && isPrefix p' s')%bool
  end.

Fixpoint includesChars (s sub : list ascii) : bool :=
  (isPrefix sub s ||
   match s with
   | [] => false
   | _ :: r => includesChars r sub
   end)%bool.

(** [s.includes(sub)]. *)
Definition includes (s sub : string) : bool := includesChars (chars s) (chars sub).

(** [s.split(/C+/)] for a character class [C]: the pieces between the
    maximal runs of separators, an empty piece before a leading and after a
    trailing run, and the one piece [""] for the empty string. *)
Fixpoint splitRuns (isSep : ascii -> bool) (inSep : bool) (acc : list ascii)
  (s : list ascii) : list (list ascii) :=
  match s with
  | [] => [rev acc]
  | c :: r =>
      if isSep c
      then if inSep then splitRuns isSep true acc r
           else rev acc :: splitRuns isSep true [] r
      else splitRuns isSep false (c :: acc) r
  end.

Definition splitOn (isSep : ascii -> bool) (s : string) : list string :=
  map str (splitRuns isSep false [] (chars s)).

(** [Array.prototype.includes] on strings. *)
Definition arrayIncludes (l : list string) (w : string) : bool :=
  existsb (String.eqb w) l.

(** [[...new Set(l)]]: the distinct elements in order of first occurrence,
    compared with [SameValueZero], which on strings is equality of the code
    unit sequences. *)
Fixpoint setOfAux (seen : list string) (l : list string) : list string :=
  match l with
  | [] => []
  | x :: r =>
      if arrayIncludes seen x then setOfAux seen r
      else x :: setOfAux (x :: seen) r
  end.

Definition setOf (l : list string) : list string := setOfAux [] l.

(** [Math.min] and [Math.max] on two numbers (a NaN argument gives NaN; the
    sign of a zero result is not tracked, no caller depends on it). *)
Definition isNaN (x : float) : bool := negb (PrimFloat.eqb x x).

Definition fmin (a b : float) : float :=
  if isNaN a then a else if isNaN b then b
  else if PrimFloat.ltb b a then b else a.

Definition fmax (a b : float) : float :=
  if isNaN a then a else if isNaN b then b
  else if PrimFloat.ltb a b then b else a.

(** [Math.max(...l)] over integers; [None] stands for [-Infinity], the
    value for no argument. *)
Definition mathMax (l : list Z) : option Z :=
  match l with
  | [] => None
  | x :: r => Some (fold_left Z.max r x)
  end.

(** [l.findIndex(p)], counted from [i]; -1 when no element passes. *)
Fixpoint findIndexFrom {A} (p : A -> bool) (l : list A) (i : Z) : Z :=
  match l with
  | [] => (-1)%Z
  | x :: r => if p x then i else findIndexFrom p r (i + 1)%Z
  end.

(** The integers from [lo] to [hi], as a loop
    [for (let i = lo; i <= hi; i++)] visits them. *)
Definition range (lo hi : Z) : list Z :=
  map (fun k => (lo + Z.of_nat k)%Z) (seq 0 (Z.to_nat (hi - lo + 1))).

(** [l.slice(i, j)] for [0 <= i <= j]. *)
Definition slice {A} (l : list A) (i j : nat) : list A :=
  firstn (j - i) (skipn i l).

End JS.

(* ===================================================================== *)
(** ** [INDICATORS] *)
(* ===================================================================== *)

Module Indicators.

Record Indicator := mkIndicator {
  id : Z;
  name : string;
  description : string;
  keywords : list string
}.

Definition INDICATORS : list Indicator := [
  mkIndicator 1 "Rejection of democratic rules"
    "Rejection or weak commitment to democratic rules of the game, such as refusing to accept election results, suggesting the need to suspend the constitution, or advocating extraconstitutional measures."
    [ "constitution"; "election"; "suspend"; "reject"; "rules"; "democracy";
      "coup"; "overthrow"; "military"; "extraconstitutional"; "martial law";
      "emergency powers"; "override"; "ignore results"; "rigged election";
      "stolen election"; "illegal votes"; "constitutional crisis";
      "refuse to concede"; "refuse to accept"; "delay election";
      "postpone election"; "cancel election"; "nullify" ];
  mkIndicator 2 "Denial of legitimacy of opponents"
    "Denying the legitimacy of political opponents, describing them as subversive, criminal, or foreign agents who pose an existential threat."
    [ "enemy"; "traitor"; "criminal"; "subversive"; "illegitimate"; "threat";
      "foreign"; "agent"; "spy"; "terrorist"; "corrupt"; "radical";
      "extremist"; "dangerous"; "un-American"; "unpatriotic"; "treasonous";
      "sedition"; "conspiracy"; "deep state"; "puppet"; "controlled by";
      "infiltrated"; "fifth column"; "disloyal"; "enemy of the people";
      "enemy of the state"; "lock them up" ];
  mkIndicator 3 "Toleration of violence"
    "Tolerating or encouraging violence, or showing a willingness to curtail civil liberties of opponents, including media."
    [ "violence"; "force"; "attack"; "suppress"; "silence"; "censor"; "media";
      "journalist"; "protest"; "civil liberties"; "rights"; "crackdown";
      "crush"; "destroy"; "eliminate"; "rough up"; "beat"; "fight back";
      "take them out"; "punch"; "second amendment"; "armed"; "militia";
      "mob"; "riot"; "storm"; "take by force"; "blood"; "sacrifice";
      "battle"; "war"; "combat"; "struggle" ];
  mkIndicator 4 "Readiness to curtail civil liberties"
    "Readiness to curtail civil liberties of opponents, including media freedom, or showing support for measures that would restrict rights."
    [ "restrict"; "limit"; "curtail"; "freedom"; "liberty"; "rights"; "press";
      "speech"; "assembly"; "opposition"; "dissent"; "ban"; "shut down";
      "close"; "censor"; "silence"; "gag"; "muzzle"; "fake news";
      "enemy of the people"; "libel laws"; "defamation"; "national security";
      "surveillance"; "monitor"; "track"; "investigate"; "detain"; "arrest";
      "imprison"; "deport"; "expel" ]
]%string.

End Indicators.

(* ===================================================================== *)
(** ** Labeled examples: [{text: string, label: number}] *)
(* ===================================================================== *)

(** The value found in a [label] field at run time.  The type annotation
    promises a number; [addTrainingData] checks it with [typeof]. *)
Inductive JsValue :=
| JsNumber (x : float)
| JsString (s : string)
| JsUndefined.

Record LabeledExample := mkExample {
  text : string;
  label : JsValue
}.

(** The number with an integer value (exact below 2^53). *)
Definition number (z : Z) : float := PrimFloat.of_uint63 (Uint63.of_Z z).

(* ===================================================================== *)
(** ** [src/nlp.ts] *)
(* ===================================================================== *)

Module Nlp.

Import JS.

(** An indicator with its lower-cased keywords: the object
    [{...indicator, processedKeywords}] of [prepareKeywords]. *)
Record ProcessedIndicator := mkProcessed {
  id : Z;
  name : string;
  description : string;
  keywords : list string;
  processedKeywords : list string
}.

Definition prepareKeywords (inds : list Indicators.Indicator)
  : list ProcessedIndicator :=
  map (fun indicator =>
         mkProcessed (Indicators.id indicator) (Indicators.name indicator)
           (Indicators.description indicator) (Indicators.keywords indicator)
           (map toLowerCase (Indicators.keywords indicator)))
      inds.

Definition processedIndicators : list ProcessedIndicator :=
  prepareKeywords Indicators.INDICATORS.

(** The static indicator a processed indicator was spread from. *)
Definition staticPart (p : ProcessedIndicator) : Indicators.Indicator :=
  Indicators.mkIndicator (id p) (name p) (description p) (keywords p).

(** *** [analyzeSentiment] *)

Definition positiveWords : list string :=
  [ "good"; "great"; "excellent"; "positive"; "wonderful"; "best"; "love";
    "happy"; "right"; "free" ]%string.

Definition negativeWords : list string :=
  [ "bad"; "terrible"; "awful"; "negative"; "worst"; "hate"; "sad"; "wrong";
    "evil"; "corrupt" ]%string.

Definition sentimentStep (score : float) (word : string) : float :=
  let score := if arrayIncludes positiveWords word then (score + 0.1)%float
               else score in
  if arrayIncludes negativeWords word then (score - 0.1)%float else score.

Definition analyzeSentiment (text : string) : float :=
  let words := splitOn (fun c => negb (isWordChar c)) (toLowerCase text) in
  let score := fold_left sentimentStep words 0%float in
  fmax (-1)%float (fmin 1%float score).

(** *** The regular expression [\bkeyword\b] with flags [gi]

    The keywords hold letters, spaces and one hyphen, none of which is a
    regular expression operator, so the pattern is the keyword taken
    literally between two word-boundary assertions. *)

Definition isWordAt (c : option ascii) : bool :=
  match c with
  | Some c => isWordChar c
  | None => false
  end.

(** [\b] between the code unit before and the code unit after a position. *)
Definition wordBoundary (prev next : option ascii) : bool :=
  xorb (isWordAt prev) (isWordAt next).

(** The keyword matched case-insensitively at the head of the text: the
    matched code units as they stand in the text, and what follows them. *)
Fixpoint matchLiteral (keyword text : list ascii)
  : option (list ascii * list ascii) :=
  match keyword, text with
  | [], _ => Some ([], text)
  | _ :: _, [] => None
  | k :: keyword', c :: text' =>
      if Ascii.eqb (canonicalize k) (canonicalize c)
      then match matchLiteral keyword' text' with
           | Some (m, after) => Some (c :: m, after)
           | None => None
           end
      else None
  end.

(** One attempt of the pattern at a position. *)
Definition matchAt (keyword : list ascii) (prev : option ascii)
  (text : list ascii) : option (list ascii) :=
  if wordBoundary prev (hd_error text)
  then match matchLiteral keyword text with
       | Some (m, after) =>
           if wordBoundary (hd_error (rev m ++ match prev with
                                               | Some p => [p]
                                               | None => []
                                               end))
                           (hd_error after)
           then Some m else None
       | None => None
       end
  else None.

(** All matches from left to right, each with its index; after a match the
    search resumes where the match ended ([skip] counts the code units of
    the last match still to pass). *)
Fixpoint execAll (keyword : list ascii) (skip index : nat)
  (prev : option ascii) (text : list ascii) : list (nat * list ascii) :=
  match text with
  | [] => []
  | c :: rest =>
      match skip with
      | S k => execAll keyword k (S index) (Some c) rest
      | O =>
          match matchAt keyword prev text with
          | Some m =>
              (index, m)
                :: execAll keyword (length m - 1) (S index) (Some c) rest
          | None => execAll keyword 0 (S index) (Some c) rest
          end
      end
  end.

Definition regexExecAll (keyword text : string) : list (nat * string) :=
  map (fun im => (fst im, str (snd im)))
      (execAll (chars keyword) 0 0 None (chars text)).

(** [text.match(regex)], with [null] read as no match. *)
Definition regexMatchAll (keyword text : string) : list string :=
  map snd (regexExecAll keyword text).

(** *** [analyzeText] *)

Record MatchDetail := mkDetail {
  original : string;
  context : string
}.

Record AnalysisResult := mkResult {
  indicator : ProcessedIndicator;
  score : Z;
  matches : list string;
  matchDetails : list MatchDetail
}.

Definition sameDetail (a b : MatchDetail) : bool :=
  (String.eqb (original a) (original b)
   && String.eqb (context a) (context b))%bool.

(** [a.filter((v, i) => a.findIndex(t => same t v) === i)]: the first of
    every group of equal details. *)
Fixpoint firstOccurrences (seen : list MatchDetail) (l : list MatchDetail)
  : list MatchDetail :=
  match l with
  | [] => []
  | v :: r =>
      if existsb (fun t => sameDetail t v) seen then firstOccurrences seen r
      else v :: firstOccurrences (seen ++ [v]) r
  end.

Definition contextOf (text keyword : string) (index : nat) : string :=
  let start := Nat.max 0 (index - 30) in
  let stop := Nat.min (String.length text)
                      (index + String.length keyword + 30) in
  str (substring (chars text) start stop).

Definition keywordMatches (text keyword : string) : list string :=
  regexMatchAll keyword text.

Definition keywordDetails (text keyword : string) : list MatchDetail :=
  map (fun im => mkDetail (snd im) (contextOf text keyword (fst im)))
      (regexExecAll keyword text).

(** The score of one indicator from its distinct matches. *)
Definition scoreOf (uniqueMatches : nat) (sentiment : float) : Z :=
  let score := Z.min 10 (Z.of_nat uniqueMatches * 2) in
  if (0 <? uniqueMatches)%nat
  then if PrimFloat.ltb sentiment (-0.2)%float
       then Z.min 10 (score + 1)
       else score
  else score.

Definition analyzeIndicator (text : string) (indicator : ProcessedIndicator)
  : AnalysisResult :=
  let matches := flat_map (keywordMatches text) (processedKeywords indicator) in
  let matchDetails :=
    flat_map (keywordDetails text) (processedKeywords indicator) in
  let uniqueMatches := setOf matches in
  mkResult indicator
           (scoreOf (length uniqueMatches) (analyzeSentiment text))
           uniqueMatches
           (firstOccurrences [] matchDetails).

Definition analyzeText (text : string) : list AnalysisResult :=
  if (String.eqb text "" || (String.length (trim text) =? 0)%nat)%bool
  then []
  else map (analyzeIndicator text) processedIndicators.

End Nlp.

(* ===================================================================== *)
(** ** [src/pdfExtractor.ts]: [PDFExtractor.extractTrainingData] *)
(* ===================================================================== *)

Module PDFExtractor.

Import JS.

Definition newline : ascii := ascii_of_N 10.

(** After a line feed: where the separator [\n\s*\n] ends, counted in code
    units of what follows the line feed.  [\s*] is greedy and backtracks to
    the last line feed of the white space run. *)
Fixpoint separatorEnd (s : list ascii) (pos : nat) (best : option nat)
  : option nat :=
  match s with
  | [] => best
  | c :: r =>
      if isWhiteSpace c
      then separatorEnd r (S pos)
             (if Ascii.eqb c newline then Some (S pos) else best)
      else best
  end.

(** [text.split(/\n\s*\n/)]. *)
Fixpoint splitParagraphRuns (skip : nat) (acc : list ascii) (s : list ascii)
  : list (list ascii) :=
  match s with
  | [] => [rev acc]
  | c :: r =>
      match skip with
      | S k => splitParagraphRuns k acc r
      | O =>
          if Ascii.eqb c newline
          then match separatorEnd r 0 None with
               | Some n => rev acc :: splitParagraphRuns n [] r
               | None => splitParagraphRuns 0 (c :: acc) r
               end
          else splitParagraphRuns 0 (c :: acc) r
      end
  end.

Definition splitParagraphs (extractedText : string) : list string :=
  map str (splitParagraphRuns 0 [] (chars extractedText)).

Definition isTerminator (c : ascii) : bool :=
  (Ascii.eqb c "." || Ascii.eqb c "!" || Ascii.eqb c "?")%bool.

(** [paragraph.match(/[^.!?]+[.!?]+/g) || []]: every maximal run of
    non-terminators that is followed by a terminator, with all the
    terminators that follow it.  [body] and [terms] are the two parts of the
    match under way, latest code unit first. *)
Fixpoint sentenceRuns (body terms : list ascii) (s : list ascii)
  : list (list ascii) :=
  match s with
  | [] =>
      match terms with
      | [] => []
      | _ :: _ => [rev body ++ rev terms]
      end
  | c :: r =>
      if isTerminator c
      then match body with
           | [] => sentenceRuns [] [] r
           | _ :: _ => sentenceRuns body (c :: terms) r
           end
      else match terms with
           | [] => sentenceRuns (c :: body) [] r
           | _ :: _ => (rev body ++ rev terms) :: sentenceRuns [c] [] r
           end
  end.

Definition matchSentences (paragraph : string) : list string :=
  map str (sentenceRuns [] [] (chars paragraph)).

(** The inner [for (const keyword of indicator.keywords)] loop with its
    [break]. *)
Fixpoint scanKeywords (sentence : string) (keywords : list string) : bool :=
  match keywords with
  | [] => false
  | keyword :: rest =>
      if includes (toLowerCase sentence) (toLowerCase keyword) then true
      else scanKeywords sentence rest
  end.

(** The outer [for (let i = 0; i < 4; i++)] loop from index [i] on, over the
    indicators not yet visited: the label [i + 1] of the first indicator one
    of whose keywords the sentence contains. *)
Fixpoint scanIndicators (sentence : string) (i : nat)
  (indicators : list Indicators.Indicator) : option Z :=
  match indicators with
  | [] => None
  | indicator :: rest =>
      if scanKeywords sentence (Indicators.keywords indicator)
      then Some (Z.of_nat i + 1)%Z
      else scanIndicators sentence (S i) rest
  end.

Definition findIndicator (sentence : string) : option Z :=
  scanIndicators sentence 0 (firstn 4 Indicators.INDICATORS).

(** The body of the loop over the sentences of a paragraph.  [random] is the
    sequence of values [Math.random()] returns and [draws] the number of
    calls made so far. *)
Definition processSentence (random : nat -> float) (draws : nat)
  (sentence : string) : list LabeledExample * nat :=
  if (String.length (trim sentence) <? 20)%nat then ([], draws)
  else
    match findIndicator sentence with
    | Some indicatorId =>
        ([mkExample (trim sentence) (JsNumber (number indicatorId))], draws)
    | None =>
        if PrimFloat.ltb (random draws) 0.1%float
        then ([mkExample (trim sentence) (JsNumber (number 0))], S draws)
        else ([], S draws)
    end.

(** A loop that pushes examples and draws random numbers. *)
Fixpoint forEach {A} (body : nat -> A -> list LabeledExample * nat)
  (draws : nat) (l : list A) : list LabeledExample * nat :=
  match l with
  | [] => ([], draws)
  | x :: r =>
      let (pushed, draws') := body draws x in
      let (pushed', draws'') := forEach body draws' r in
      (pushed ++ pushed', draws'')
  end.

Definition processParagraph (random : nat -> float) (draws : nat)
  (paragraph : string) : list LabeledExample * nat :=
  if (50 <? String.length (trim paragraph))%nat
  then forEach (processSentence random) draws (matchSentences paragraph)
  else ([], draws).

(** The labeler on the text extracted from the PDF: the error it throws, or
    the examples it returns. *)
Definition extractTrainingData (random : nat -> float) (extractedText : string)
  : string + list LabeledExample :=
  if (String.eqb extractedText ""
      || (String.length (trim extractedText) =? 0)%nat)%bool
  then inl "No text extracted from PDF"%string
  else inr (fst (forEach (processParagraph random) 0
                         (splitParagraphs extractedText))).

(** *** [extractText], [hasExtractedText]

    A loaded document: the number of its pages and, for every page, the
    text [extractPageText] obtains from PDF.js for it (the text items of the
    page, or the note that the page could not be read).  PDF.js opening the
    data again is taken to succeed, as it did when the file was loaded. *)
Record Document := mkDocument {
  numPages : Z;
  pageText : Z -> string
}.

Definition BATCH_SIZE : Z := 3.

Definition paragraphBreak : string := String newline (String newline "").

(** The pages of one round of the loop over the batches. *)
Definition batchPages (startPageNum maxPage batch : Z) : list Z :=
  let batchStart := (startPageNum + batch * BATCH_SIZE)%Z in
  let batchEnd := Z.min (batchStart + BATCH_SIZE - 1) maxPage in
  range batchStart batchEnd.

(** [Math.ceil((maxPage - startPageNum + 1) / BATCH_SIZE)] *)
Definition totalBatches (startPageNum maxPage : Z) : Z :=
  ((maxPage - startPageNum + 1) + (BATCH_SIZE - 1)) / BATCH_SIZE.

(** [extractText(startPage, endPage)]: the error it throws, or the text it
    returns and keeps in [this.extractedText].  [endPage] is optional, and
    [endPage || this.numPages] also replaces an end page 0.  The texts of the
    pages of one batch are joined with an empty line; the batches follow one
    another with nothing in between. *)
Definition extractText (pdf : option Document) (startPage : Z)
  (endPage : option Z) : string + string :=
  match pdf with
  | None => inl "No PDF loaded"%string
  | Some doc =>
      let requested :=
        match endPage with
        | Some e => if (e =? 0)%Z then numPages doc else e
        | None => numPages doc
        end in
      let maxPage := Z.min requested (numPages doc) in
      let startPageNum := Z.max 1 startPage in
      if (maxPage <? startPageNum)%Z
      then inl "Start page cannot be greater than end page"%string
      else
        inr (String.concat ""
               (map (fun batch =>
                       String.concat paragraphBreak
                         (map (pageText doc)
                              (batchPages startPageNum maxPage batch)))
                    (range 0 (totalBatches startPageNum maxPage - 1))))
  end.

Definition hasExtractedText (extractedText : string) : bool :=
  (0 <? String.length (trim extractedText))%nat.

End PDFExtractor.

(* ===================================================================== *)
(** ** [AuthoritarianClassifier] *)
(* ===================================================================== *)

Module AuthoritarianClassifier.

Import JS.

Definition maxSequenceLength : nat := 50.

(** *** [textToVector]

    What a slot of [wordCounts], and then of the vector, holds at run time.
    The annotation [Record<string, number>] promises a number, but
    [wordCounts] is the object literal [{}], whose prototype is
    [Object.prototype]: reading [wordCounts[word]] for a word the object does
    not own yet falls through to the prototype, and [+] on a value that is
    not a number concatenates strings. *)
Inductive Slot :=
| Num (n : N)
| Str (s : string).

(** [wordCounts]: the own properties in order of creation. *)
Definition WordCounts := list (string * Slot).

Fixpoint getOwn (wordCounts : WordCounts) (word : string) : option Slot :=
  match wordCounts with
  | [] => None
  | (k, v) :: r => if String.eqb k word then Some v else getOwn r word
  end.

(** [(wordCounts[word] || 0) + 1].  The words reaching this point are made of
    [a-z0-9_] (the text is lower-cased and stripped), and the properties of
    [Object.prototype] with such a name are [constructor], the function
    [Object], and the accessor [__proto__], which reads as
    [Object.prototype]; both are truthy objects, and adding 1 to them yields
    their string form followed by the digit 1. *)
Definition incremented (wordCounts : WordCounts) (word : string) : Slot :=
  match getOwn wordCounts word with
  | Some (Num n) => Num (n + 1)
  | Some (Str s) => if String.eqb s "" then Num 1 else Str (s ++ "1")
  | None =>
      if String.eqb word "constructor"
      then Str "function Object() { [native code] }1"
      else if String.eqb word "__proto__"
      then Str "[object Object]1"
      else Num 1
  end.

Fixpoint setOwn (wordCounts : WordCounts) (word : string) (v : Slot)
  : WordCounts :=
  match wordCounts with
  | [] => [(word, v)]
  | (k, old) :: r =>
      if String.eqb k word then (k, v) :: r else (k, old) :: setOwn r word v
  end.

(** [wordCounts[word] = v].  Assigning to [__proto__] calls the setter of
    [Object.prototype], which ignores a value that is neither an object nor
    [null]: no own property is created. *)
Definition assign (wordCounts : WordCounts) (word : string) (v : Slot)
  : WordCounts :=
  if String.eqb word "__proto__" then wordCounts else setOwn wordCounts word v.

Definition countWord (wordCounts : WordCounts) (word : string) : WordCounts :=
  if (2 <? String.length word)%nat
  then assign wordCounts word (incremented wordCounts word)
  else wordCounts.

Definition isDigit (c : ascii) : bool := between 48 57 c.

Definition digitsValue (l : list ascii) : N :=
  fold_left (fun acc c => acc * 10 + (code c - 48))%N l 0%N.

(** A property key that is an array index: the canonical decimal form of an
    integer from 0 to 2^32 - 2. *)
Definition arrayIndex (key : string) : option N :=
  match chars key with
  | [] => None
  | c :: r =>
      if (forallb isDigit (c :: r)
          && (negb (Ascii.eqb c "0") || (length r =? 0)%nat)
          && (length (c :: r) <=? 10)%nat
          && (digitsValue (c :: r) <=? 4294967294)%N)%bool
      then Some (digitsValue (c :: r))
      else None
  end.

Fixpoint insertByIndex (i : N) (e : string * Slot)
  (l : list (N * (string * Slot))) : list (N * (string * Slot)) :=
  match l with
  | [] => [(i, e)]
  | (j, e') :: r =>
      if (i <? j)%N then (i, e) :: l else (j, e') :: insertByIndex i e r
  end.

Definition indexedEntries (wordCounts : WordCounts) : list (string * Slot) :=
  map snd
      (fold_left (fun acc e =>
                    match arrayIndex (fst e) with
                    | Some i => insertByIndex i e acc
                    | None => acc
                    end)
                 wordCounts []).

Definition namedEntries (wordCounts : WordCounts) : list (string * Slot) :=
  filter (fun e => match arrayIndex (fst e) with
                   | Some _ => false
                   | None => true
                   end)
         wordCounts.

(** [Object.entries(wordCounts)]: the keys that are array indices in
    ascending numeric order, then the other keys in order of creation. *)
Definition entries (wordCounts : WordCounts) : list (string * Slot) :=
  indexedEntries wordCounts ++ namedEntries wordCounts.

(** [vector[index] = count] for an index below the length of the vector. *)
Fixpoint setAt (vector : list Slot) (index : nat) (count : Slot) : list Slot :=
  match vector, index with
  | [], _ => []
  | _ :: r, O => count :: r
  | x :: r, S i => x :: setAt r i count
  end.

(** The loop that fills the vector, from position [index] on. *)
Fixpoint fillVector (vector : list Slot) (index : nat)
  (es : list (string * Slot)) : list Slot :=
  match es with
  | [] => vector
  | (_, count) :: r =>
      if (index <? maxSequenceLength)%nat
      then fillVector (setAt vector index count) (S index) r
      else vector
  end.

Definition tokenize (text : string) : list string :=
  let stripped :=
    str (filter (fun c => (isWordChar c || isWhiteSpace c)%bool)
                (chars (toLowerCase text))) in
  splitOn isWhiteSpace stripped.

Definition wordCountsOf (text : string) : WordCounts :=
  fold_left countWord (tokenize text) [].

Definition textToVector (text : string) : list Slot :=
  fillVector (repeat (Num 0) maxSequenceLength) 0 (entries (wordCountsOf text)).

(** *** The classifier and TensorFlow.js *)

Section Classifier.

(** [tf.LayersModel]: a network with its weights. *)
Variable Model : Type.

(** What TensorFlow.js did when asked; [None] and [inr] stand for a thrown
    exception, [inr] carrying the message read from it. *)
Record TensorFlow := mkTensorFlow {
  (** [tf.sequential()] with the layers 32 relu, dropout 0.3, 16 relu,
      5 softmax, compiled with adam(0.001) *)
  sequentialMain : option Model;
  (** [tf.sequential()] with the layers 10 relu, 5 softmax, compiled *)
  sequentialSimple : option Model;
  (** [model.fit(xs, ys, {epochs, batchSize, validationSplit: 0.1,
      shuffle: true})] on the tensors made of the vectors and labels *)
  fit : Model -> list (list Slot) -> list (list Z) -> Z -> Z -> Model + string;
  (** [model.predict(tensor2d([vector])).dataSync()] *)
  predictData : Model -> list Slot -> option (list float)
}.

Record Classifier := mkClassifier {
  model : option Model;
  isModelReady : bool;
  trainingData : list LabeledExample;
  trainingStatus : string
}.

Definition setModel (this : Classifier) (m : option Model) (ready : bool)
  : Classifier :=
  mkClassifier m ready (trainingData this) (trainingStatus this).

Definition setStatus (this : Classifier) (status : string) : Classifier :=
  mkClassifier (model this) (isModelReady this) (trainingData this) status.

Definition buildSimpleModel (tf : TensorFlow) (this : Classifier) : Classifier :=
  match sequentialSimple tf with
  | Some m => setModel this (Some m) true
  | None => setModel this None false
  end.

Definition buildModel (tf : TensorFlow) (this : Classifier) : Classifier :=
  match sequentialMain tf with
  | Some m => setModel this (Some m) true
  | None => buildSimpleModel tf this
  end.

(** The fields as initialised, then the constructor: it calls [buildModel],
    whose body holds no [await] and so has run to its end when [new]
    returns. *)
Definition initial : Classifier := mkClassifier None false [] "".

Definition create (tf : TensorFlow) : Classifier := buildModel tf initial.

(** *** [addTrainingData] *)

Definition validItem (item : LabeledExample) : bool :=
  (negb (String.eqb (text item) "")
   && match label item with
      | JsNumber x => PrimFloat.leb 0%float x && PrimFloat.leb x 4%float
      | _ => false
      end)%bool.

Definition addTrainingData (this : Classifier) (data : list LabeledExample)
  : Classifier * nat :=
  let validData := filter validItem data in
  let this' := mkClassifier (model this) (isModelReady this)
                            (trainingData this ++ validData)
                            (trainingStatus this) in
  (this', length (trainingData this')).

Definition getTrainingDataSize (this : Classifier) : nat :=
  length (trainingData this).

(** *** [train] *)

Inductive TrainResult :=
| Threw (message : string)
| History.

Definition notInitialized : string :=
  "Model not initialized. Please rebuild the model.".

Definition notEnoughData : string :=
  "Not enough training data. Need at least 10 examples.".

(** [Array(5).fill(0)] with [label[item.label] = 1], for the labels
    [addTrainingData] lets in: a label that is no integer sets a property
    that is not an element, and the five elements stay 0. *)
Definition oneHot (l : JsValue) : list Z :=
  match l with
  | JsNumber x =>
      map (fun k => if PrimFloat.eqb x (number k) then 1 else 0)%Z
          [0; 1; 2; 3; 4]%Z
  | _ => [0; 0; 0; 0; 0]%Z
  end.

(** The status kept is the one left when [train] settles. *)
Definition train (tf : TensorFlow) (epochs batchSize : Z) (this : Classifier)
  : Classifier * TrainResult :=
  let this1 :=
    match model this, isModelReady this with
    | Some _, true => this
    | _, _ => buildModel tf this
    end in
  match model this1 with
  | None => (this1, Threw notInitialized)
  | Some m =>
      if (length (trainingData this1) <? 10)%nat
      then (this1, Threw notEnoughData)
      else
        let vectors := map (fun item => textToVector (text item))
                           (trainingData this1) in
        let labels := map (fun item => oneHot (label item))
                          (trainingData this1) in
        let actualEpochs := Z.min epochs 5 in
        let actualBatchSize := Z.min batchSize 4 in
        match fit tf m vectors labels actualEpochs actualBatchSize with
        | inl trained =>
            (setStatus (setModel this1 (Some trained) (isModelReady this1))
                       "Model trained successfully",
             History)
        | inr message =>
            (setStatus (buildSimpleModel tf this1)
                       ("Training failed: " ++ message),
             Threw ("Training failed: " ++ message))
        end
  end.

(** *** [predict] *)

Record Prediction := mkPrediction {
  notAuthoritarian : float;
  indicator1 : float;
  indicator2 : float;
  indicator3 : float;
  indicator4 : float;
  predictedClass : Z
}.

Definition neutral : Prediction :=
  mkPrediction 1%float 0%float 0%float 0%float 0%float 0.

(** [predictionData[k] || 0]: a missing element, a zero and NaN are falsy. *)
Definition orZero (data : list float) (k : nat) : float :=
  match nth_error data k with
  | Some x => if (isNaN x || PrimFloat.eqb x 0%float)%bool then 0%float else x
  | None => 0%float
  end.

(** [Math.max(...data)]. *)
Definition maxOf (data : list float) : float :=
  fold_left fmax data neg_infinity.

(** [data.indexOf(x)], -1 when no element is strictly equal to [x]. *)
Fixpoint indexOfFrom (data : list float) (x : float) (i : Z) : Z :=
  match data with
  | [] => (-1)%Z
  | y :: r => if PrimFloat.eqb y x then i else indexOfFrom r x (i + 1)%Z
  end.

Definition predict (tf : TensorFlow) (this : Classifier) (text : string)
  : Prediction :=
  match model this, isModelReady this with
  | Some m, true =>
      match predictData tf m (textToVector text) with
      | Some predictionData =>
          mkPrediction (orZero predictionData 0) (orZero predictionData 1)
                       (orZero predictionData 2) (orZero predictionData 3)
                       (orZero predictionData 4)
                       (indexOfFrom predictionData (maxOf predictionData) 0)
      | None => neutral
      end
  | _, _ => neutral
  end.

End Classifier.

Arguments mkTensorFlow {Model}.
Arguments sequentialMain {Model}.
Arguments sequentialSimple {Model}.
Arguments fit {Model}.
Arguments predictData {Model}.
Arguments mkClassifier {Model}.
Arguments model {Model}.
Arguments isModelReady {Model}.
Arguments trainingData {Model}.
Arguments trainingStatus {Model}.
Arguments setModel {Model}.
Arguments setStatus {Model}.
Arguments buildSimpleModel {Model}.
Arguments buildModel {Model}.
Arguments initial {Model}.
Arguments create {Model}.
Arguments addTrainingData {Model}.
Arguments getTrainingDataSize {Model}.
Arguments train {Model}.
Arguments predict {Model}.

(** *** [generateSyntheticData]

    [choose i] is the index [Math.floor(Math.random() * examples.length)]
    drawn in round [i]; an index outside the array reads [undefined], for
    which [analyzeText] returns no result. *)
Definition syntheticLabel (example : option string) : Z :=
  let analysis :=
    match example with
    | Some e => Nlp.analyzeText e
    | None => []
    end in
  let scores := map Nlp.score analysis in
  match mathMax scores with
  | None => 0%Z
  | Some maxScore =>
      if (3 <? maxScore)%Z
      then (findIndexFrom (fun a => (Nlp.score a =? maxScore)%Z) analysis 0
            + 1)%Z
      else 0%Z
  end.

Fixpoint generateFrom (choose : nat -> nat) (examples : list string)
  (i rounds : nat) : list LabeledExample :=
  match rounds with
  | O => []
  | S rounds' =>
      let example := nth_error examples (choose i) in
      let label := syntheticLabel example in
      match example with
      | Some e =>
          if (0 <? label)%Z
          then mkExample e (JsNumber (number label))
                 :: generateFrom choose examples (S i) rounds'
          else generateFrom choose examples (S i) rounds'
      | None => generateFrom choose examples (S i) rounds'
      end
  end.

Definition generateSyntheticData (choose : nat -> nat) (examples : list string)
  (count : nat) : list LabeledExample :=
  generateFrom choose examples 0 count.

End AuthoritarianClassifier.

(* ===================================================================== *)
(** ** [src/nlp.ts]: [extractTrainingData] *)
(* ===================================================================== *)

Module NlpTraining.

Import JS.

Record TrainingItem := mkItem {
  text : string;
  label : Z;
  scores : list Z
}.

(** The body of [sentences.map(...)].  The sentences are those of the same
    pattern as in the extractor.  [?.indicator.id || 0] is 0 when [find]
    finds nothing. *)
Definition labelSentence (sentence : string) : TrainingItem :=
  let analysis := Nlp.analyzeText sentence in
  let primaryIndicator :=
    match mathMax (map Nlp.score analysis) with
    | None => 0%Z
    | Some highestScore =>
        match find (fun a => (Nlp.score a =? highestScore)%Z) analysis with
        | Some a => Nlp.id (Nlp.indicator a)
        | None => 0%Z
        end
    end in
  mkItem (trim sentence)
         (if (0 <? primaryIndicator)%Z then primaryIndicator else 0%Z)
         (map Nlp.score analysis).

Definition extractTrainingData (text : string) : list TrainingItem :=
  filter (fun item => (0 <? label item)%Z)
         (map labelSentence (PDFExtractor.matchSentences text)).

End NlpTraining.

(* ===================================================================== *)
(** ** [src/supabase.ts]: [mlStorage.storeTrainingData] *)
(* ===================================================================== *)

Module MlStorage.

Import JS.

Definition BATCH_SIZE : nat := 100.

(** The loop [for (let i = 0; i < data.length; i += BATCH_SIZE)] from
    position [i] on: the slices it inserts.  [fuel] bounds the number of
    rounds; the length of the data is enough. *)
Fixpoint batchesFrom {A} (fuel : nat) (data : list A) (i : nat)
  : list (list A) :=
  match fuel with
  | O => []
  | S fuel' =>
      if (i <? length data)%nat
      then slice data i (i + BATCH_SIZE)
             :: batchesFrom fuel' data (i + BATCH_SIZE)
      else []
  end.

Definition batches {A} (data : list A) : list (list A) :=
  batchesFrom (length data) data 0.

(** The rows the table holds after the call, batch by batch, and whether the
    call threw.  [accepts k] tells whether the insertion of the batch of
    rank [k] went through; the first one refused ends the loop, and what was
    inserted before it stays. *)
Fixpoint insertAll {A} (accepts : nat -> bool) (k : nat) (bs : list (list A))
  : list (list A) * bool :=
  match bs with
  | [] => ([], true)
  | b :: r =>
      if accepts k
      then let (stored, ok) := insertAll accepts (S k) r in (b :: stored, ok)
      else ([], false)
  end.

Definition storeTrainingData {A} (accepts : nat -> bool) (data : list A)
  : list (list A) * bool :=
  insertAll accepts 0 (batches data).

End MlStorage.

(* ===================================================================== *)
(** ** Notions used in the statements *)
(* ===================================================================== *)

Module Spec.

Import JS.

(** Every literal match of every keyword of an indicator, before
    deduplication. *)
Definition allMatches (text : string) (indicator : Nlp.ProcessedIndicator)
  : list string :=
  flat_map (Nlp.keywordMatches text) (Nlp.processedKeywords indicator).

(** The number of matches that are distinct when compared without regard to
    case, as the specification words it. *)
Definition caseInsensitiveCount (found : list string) : nat :=
  length (setOf (map toLowerCase found)).

(** The scoring formula of the specification over a count of matches. *)
Definition formula (uniqueMatchCount : nat) (sentiment : float) : Z :=
  let base := Z.min 10 (Z.of_nat uniqueMatchCount * 2) in
  if ((0 <? uniqueMatchCount)%nat && PrimFloat.ltb sentiment (-0.2)%float)%bool
  then Z.min 10 (base + 1)
  else base.

(** The score the specification announces: the formula over the
    case-insensitive count. *)
Definition claimedScore (text : string) (indicator : Nlp.ProcessedIndicator)
  : Z :=
  formula (caseInsensitiveCount (allMatches text indicator))
          (Nlp.analyzeSentiment text).

(** A code unit that stands for itself in a regular expression pattern as
    the keywords use it: a letter, a space or a hyphen. *)
Definition literalChar (c : ascii) : bool :=
  (between 65 90 c || between 97 122 c || Ascii.eqb c " " || Ascii.eqb c "-")%bool.

(** A text is blank when nothing is left of it after trimming. *)
Definition blank (text : string) : Prop := String.length (trim text) = 0%nat.

(** The sentence contains some keyword of the indicator, case ignored. *)
Definition mentions (sentence : string) (indicator : Indicators.Indicator)
  : Prop :=
  exists keyword,
    In keyword (Indicators.keywords indicator)
    /\ includes (toLowerCase sentence) (toLowerCase keyword) = true.

(** The indicator is the first of the static list that the sentence
    mentions. *)
Definition firstMentioned (sentence : string) (indicator : Indicators.Indicator)
  : Prop :=
  exists before after,
    Indicators.INDICATORS = before ++ indicator :: after
    /\ mentions sentence indicator
    /\ forall earlier, In earlier before -> ~ mentions sentence earlier.

(** A paragraph the labeler looks into. *)
Definition substantial (paragraph : string) : bool :=
  (50 <? String.length (trim paragraph))%nat.

(** The labeler on the sentences of a paragraph, without the test on the
    length of the paragraph. *)
Definition labelSentences (random : nat -> float) (draws : nat)
  (paragraph : string) : list LabeledExample * nat :=
  PDFExtractor.forEach (PDFExtractor.processSentence random) draws
                       (PDFExtractor.matchSentences paragraph).

(** The model is built and marked ready: the negation of the guard
    [!this.model || !this.isModelReady]. *)
Definition ready {Model} (this : AuthoritarianClassifier.Classifier Model)
  : bool :=
  match AuthoritarianClassifier.model this with
  | Some _ => AuthoritarianClassifier.isModelReady this
  | None => false
  end.

(** A vector entry that is a number. *)
Definition isNumber (v : AuthoritarianClassifier.Slot) : bool :=
  match v with
  | AuthoritarianClassifier.Num _ => true
  | AuthoritarianClassifier.Str _ => false
  end.

(** The text of 60 distinct tokens t100 ... t159. *)
Definition sixtyTokens : string :=
  String.concat " "
    (map (fun k => ("t" ++ NilEmpty.string_of_uint (Nat.to_uint k))%string)
         (seq 100 60)).

(** Every count held by [wordCounts] is a number. *)
Definition allNumbers (wordCounts : AuthoritarianClassifier.WordCounts) : Prop :=
  Forall (fun e => isNumber (snd e) = true) wordCounts.

(** TensorFlow.js where every network builds and fits, and where the forward
    pass yields the uniform distribution: five equal logits under softmax,
    which is what a dense network with zero biases returns on the zero
    vector. *)
Definition uniformTf : AuthoritarianClassifier.TensorFlow unit :=
  AuthoritarianClassifier.mkTensorFlow (Some tt) (Some tt)
    (fun m _ _ _ _ => inl m)
    (fun _ _ => Some [0.2; 0.2; 0.2; 0.2; 0.2]%float).

(** TensorFlow.js where no network can be built. *)
Definition brokenTf : AuthoritarianClassifier.TensorFlow unit :=
  AuthoritarianClassifier.mkTensorFlow None None
    (fun m _ _ _ _ => inr "no backend"%string)
    (fun _ _ => None).

(** A paragraph of one sentence of 30 characters that names a keyword of
    the first indicator. *)
Definition shortParagraph : string := "The coup was sudden and swift.".

(** A paragraph of one sentence of 66 characters that names a keyword of
    the second indicator, then one of the first. *)
Definition longParagraph : string :=
  "The enemy staged a coup against the elected government last night.".

(** The first static indicator. *)
Definition firstIndicator : Indicators.Indicator :=
  hd (Indicators.mkIndicator 0 "" "" []) Indicators.INDICATORS.

(** Nine valid examples. *)
Definition nineExamples : list LabeledExample :=
  repeat (mkExample "They want to suspend the constitution." (JsNumber 1%float))
         9.

(** The count a word has in [wordCounts] after [n] of its occurrences have
    been seen: no property at all before the first. *)
Definition counted (n : nat) : option AuthoritarianClassifier.Slot :=
  match n with
  | O => None
  | S _ => Some (AuthoritarianClassifier.Num (N.of_nat n))
  end.

(** A model is present exactly when it is marked ready. *)
Definition consistent {Model} (this : AuthoritarianClassifier.Classifier Model)
  : Prop :=
  match AuthoritarianClassifier.model this with
  | Some _ => AuthoritarianClassifier.isModelReady this = true
  | None => AuthoritarianClassifier.isModelReady this = false
  end.

(** The states a classifier goes through: it is constructed, then examples
    are added and training is run in any order, each operation meeting
    TensorFlow.js in a state of its own. *)
Inductive Reachable {Model} : AuthoritarianClassifier.Classifier Model -> Prop :=
| reach_create (tf : AuthoritarianClassifier.TensorFlow Model) :
    Reachable (AuthoritarianClassifier.create tf)
| reach_add this data :
    Reachable this ->
    Reachable (fst (AuthoritarianClassifier.addTrainingData this data))
| reach_train this tf epochs batchSize :
    Reachable this ->
    Reachable (fst (AuthoritarianClassifier.train tf epochs batchSize this)).

(** The 256 code units of the embedding. *)
Definition allChars : list ascii := map ascii_of_nat (seq 0 256).

(** A sentence as the pattern [[^.!?]+[.!?]+] delimits it: code units that
    are no terminators, at least one, then terminators, at least one. *)
Definition sentenceShape (sentence : list ascii) : Prop :=
  exists body terms,
    sentence = body ++ terms
    /\ body <> [] /\ terms <> []
    /\ Forall (fun c => PDFExtractor.isTerminator c = false) body
    /\ Forall (fun c => PDFExtractor.isTerminator c = true) terms.

(** Pieces put back together with the separators that stood between
    them. *)
Fixpoint weave (pieces separators : list (list ascii)) : list ascii :=
  match pieces, separators with
  | piece :: pieces', separator :: separators' =>
      piece ++ separator ++ weave pieces' separators'
  | piece :: _, [] => piece
  | [], _ => []
  end.

(** What the pattern [\n\s*\n] matches: a line feed, white space, a line
    feed. *)
Definition separatorShape (separator : list ascii) : Prop :=
  exists blank,
    separator = PDFExtractor.newline :: blank ++ [PDFExtractor.newline]
    /\ Forall (fun c => isWhiteSpace c = true) blank.

(** The code unit before the text, if any, as a list. *)
Definition optList (prev : option ascii) : list ascii :=
  match prev with
  | Some p => [p]
  | None => []
  end.

(** The last code unit of a list, if any. *)
Definition lastChar (l : list ascii) : option ascii := hd_error (rev l).

(** The last [n] elements of a list. *)
Definition lastn {A} (n : nat) (l : list A) : list A :=
  skipn (length l - n) l.

End Spec.

(* ===================================================================== *)
(** ** Facts about the JavaScript primitives *)
(* ===================================================================== *)

Section SetOf.

Import JS.

Lemma arrayIncludes_In (l : list string) (w : string) :
  arrayIncludes l w = true <-> In w l.
Proof.
  unfold arrayIncludes. rewrite existsb_exists. split.
  - intros [x [Hin Heq]]. apply String.eqb_eq in Heq. now subst.
  - intros Hin. exists w. split; [assumption | apply String.eqb_refl].
Qed.

Lemma setOfAux_In (l seen : list string) (x : string) :
  In x (setOfAux seen l) <-> In x l /\ ~ In x seen.
Proof.
  revert seen. induction l as [| y l IH]; intros seen; simpl.
  - tauto.
  - destruct (arrayIncludes seen y) eqn:Hy.
    + apply arrayIncludes_In in Hy. rewrite IH. split.
      * intros [Hl Hs]. tauto.
      * intros [[-> | Hl] Hs]; [contradiction | tauto].
    + assert (Hn : ~ In y seen).
      { intros Hin. apply arrayIncludes_In in Hin. congruence. }
      simpl. rewrite IH. simpl. split.
      * intros [<- | [Hl Hs]]; [tauto | tauto].
      * intros [[<- | Hl] Hs]; [now left |].
        destruct (string_dec y x) as [-> | Hne]; [now left | right].
        split; [assumption | intros [E | E]; [congruence | contradiction]].
Qed.

Lemma setOfAux_NoDup (l seen : list string) : NoDup (setOfAux seen l).
Proof.
  revert seen. induction l as [| y l IH]; intros seen; simpl.
  - constructor.
  - destruct (arrayIncludes seen y); [apply IH |].
    constructor; [| apply IH].
    rewrite setOfAux_In. simpl. tauto.
Qed.

Lemma setOf_NoDup (l : list string) : NoDup (setOf l).
Proof. apply setOfAux_NoDup. Qed.

Lemma setOf_In (l : list string) (x : string) : In x (setOf l) <-> In x l.
Proof. unfold setOf. rewrite setOfAux_In. simpl. tauto. Qed.

End SetOf.

(* ===================================================================== *)
(** ** The indicator scorer *)
(* ===================================================================== *)

Section Scorer.

Import JS.

(** Every processed keyword is a non-empty string of letters, spaces and
    hyphens, which is what allows reading the pattern built from it as a
    literal. *)
Lemma keywords_literal :
  forallb (fun p =>
             forallb (fun keyword =>
                        (negb (String.eqb keyword "")
                         && forallb Spec.literalChar (chars keyword))%bool)
                     (Nlp.processedKeywords p))
          Nlp.processedIndicators
  = true.
Proof. vm_compute. reflexivity. Qed.

Example analyzeText_coup :
  map (fun r => (Nlp.id (Nlp.indicator r), Nlp.score r, Nlp.matches r))
      (Nlp.analyzeText "military coup to suspend the constitution")
  = [ (1, 8, ["constitution"; "suspend"; "coup"; "military"]%string);
      (2, 0, []); (3, 0, []); (4, 0, []) ]%Z.
Proof. vm_compute. reflexivity. Qed.

(** The pattern is anchored on word boundaries: "force" is not found
    inside "enforced". *)
Example analyzeText_enforced :
  map Nlp.matches (Nlp.analyzeText "They enforced it by force")
  = [[]; []; ["force"]; []]%string.
Proof. vm_compute. reflexivity. Qed.

Example analyzeSentiment_signs :
  PrimFloat.ltb 0%float (Nlp.analyzeSentiment "good great wonderful") = true
  /\ PrimFloat.ltb (Nlp.analyzeSentiment "bad terrible awful") 0%float = true
  /\ Nlp.analyzeSentiment "" = 0%float.
Proof. repeat split; vm_compute; reflexivity. Qed.

(** The sentiment is a sum of binary64 numbers: two negative words give
    exactly the threshold -0.2, which adds nothing to the score, and three
    negative words followed by a positive one give a number just below
    it. *)
Example analyzeSentiment_threshold :
  PrimFloat.ltb (Nlp.analyzeSentiment "bad bad") (-0.2)%float = false
  /\ PrimFloat.ltb (Nlp.analyzeSentiment "bad bad bad good") (-0.2)%float
     = true
  /\ map Nlp.score (Nlp.analyzeText "a bad, bad coup") = [2; 0; 0; 0]%Z
  /\ map Nlp.score (Nlp.analyzeText "a bad, bad, bad coup") = [3; 0; 0; 0]%Z.
Proof. repeat split; vm_compute; reflexivity. Qed.

Lemma blank_empty : Spec.blank "".
Proof. reflexivity. Qed.

Lemma guard_blank (text : string) :
  (String.eqb text "" || (String.length (trim text) =? 0)%nat)%bool = true
  <-> Spec.blank text.
Proof.
  unfold Spec.blank. rewrite orb_true_iff, Nat.eqb_eq, String.eqb_eq. split.
  - intros [-> | H]; [reflexivity | assumption].
  - intros H. now right.
Qed.

Lemma analyzeText_not_blank (text : string) :
  ~ Spec.blank text ->
  Nlp.analyzeText text = map (Nlp.analyzeIndicator text) Nlp.processedIndicators.
Proof.
  intros H. unfold Nlp.analyzeText.
  destruct (String.eqb text "" || (String.length (trim text) =? 0)%nat)%bool
    eqn:G; [| reflexivity].
  apply guard_blank in G. contradiction.
Qed.

Lemma formula_scoreOf (n : nat) (sentiment : float) :
  Nlp.scoreOf n sentiment = Spec.formula n sentiment.
Proof.
  unfold Nlp.scoreOf, Spec.formula.
  destruct (0 <? n)%nat, (PrimFloat.ltb sentiment (-0.2)%float); reflexivity.
Qed.

Lemma formula_bounds (n : nat) (sentiment : float) :
  (0 <= Spec.formula n sentiment <= 10)%Z.
Proof.
  unfold Spec.formula.
  destruct ((0 <? n)%nat && PrimFloat.ltb sentiment (-0.2)%float)%bool; lia.
Qed.

Lemma analyzeIndicator_matches (text : string) (p : Nlp.ProcessedIndicator) :
  Nlp.matches (Nlp.analyzeIndicator text p) = setOf (Spec.allMatches text p).
Proof. reflexivity. Qed.

Lemma analyzeIndicator_score (text : string) (p : Nlp.ProcessedIndicator) :
  Nlp.score (Nlp.analyzeIndicator text p)
  = Spec.formula (length (Nlp.matches (Nlp.analyzeIndicator text p)))
                 (Nlp.analyzeSentiment text).
Proof. unfold Nlp.analyzeIndicator. simpl. apply formula_scoreOf. Qed.

(** Whatever holds of the result for any indicator holds of every result
    [analyzeText] returns. *)
Lemma analyzeText_Forall (P : Nlp.AnalysisResult -> Prop) (text : string) :
  (forall p, P (Nlp.analyzeIndicator text p)) ->
  Forall P (Nlp.analyzeText text).
Proof.
  intros H. unfold Nlp.analyzeText.
  destruct (String.eqb text "" || (String.length (trim text) =? 0)%nat)%bool.
  - constructor.
  - apply Forall_forall. intros r Hr. apply in_map_iff in Hr.
    destruct Hr as [p [<- _]]. apply H.
Qed.

(** C2, as the code has it: on the empty string, and on any text that is
    empty once trimmed, [analyzeText] returns the empty list; the guard at
    its head returns before any indicator is scored. *)
Theorem analyzeText_blank (text : string) :
  Spec.blank text -> Nlp.analyzeText text = [].
Proof.
  intros H. unfold Nlp.analyzeText.
  apply guard_blank in H. now rewrite H.
Qed.

Lemma analyzeText_blank_witness :
  Spec.blank "" /\ Nlp.analyzeText "" = [].
Proof.
  split; [exact blank_empty | apply (analyzeText_blank ""); exact blank_empty].
Defined.

(** C2 as stated fails: [analyzeText ""] is not a list of four results with
    score 0 and no matches, it holds no result at all. *)
Lemma analyzeText_empty_string_no_results :
  ~ (length (Nlp.analyzeText "") = 4%nat
     /\ Forall (fun r => Nlp.score r = 0%Z /\ Nlp.matches r = [])
               (Nlp.analyzeText "")).
Proof. intros [H _]. vm_compute in H. discriminate H. Qed.

(** C3, as the code has it: for every text and every indicator, [matches]
    holds each matched string exactly once under exact comparison of the
    strings (the deduplication is that of a [Set], which tells apart two
    spellings that differ in case). *)
Theorem matches_distinct (text : string) :
  Forall (fun r => NoDup (Nlp.matches r)
                   /\ forall m, In m (Nlp.matches r)
                                <-> In m (Spec.allMatches text (Nlp.indicator r)))
         (Nlp.analyzeText text).
Proof.
  apply analyzeText_Forall. intros p. rewrite analyzeIndicator_matches. split.
  - apply setOf_NoDup.
  - intros m. apply setOf_In.
Qed.

(** C3 as stated fails: in "Coup coup" the first indicator gets the two
    matches "Coup" and "coup", which are equal once lower-cased. *)
Lemma matches_case_duplicates :
  map Nlp.matches (Nlp.analyzeText "Coup coup") = [["Coup"; "coup"]; []; []; []]%string
  /\ ~ Forall (fun r => NoDup (map toLowerCase (Nlp.matches r)))
              (Nlp.analyzeText "Coup coup").
Proof.
  split; [vm_compute; reflexivity |].
  intros H. vm_compute in H.
  inversion H as [| r rs Hd _]; subst.
  inversion Hd as [| x l Hn _]; subst.
  apply Hn. now left.
Qed.

(** C4, as the code has it: for every text and every indicator the score is
    [min(10, n * 2)], plus 1 and clamped to 10 again exactly when [n > 0]
    and the sentiment of the whole text is strictly below -0.2, where [n]
    is the number of matched strings that are distinct under exact
    comparison; the score lies in [0,10]. *)
Theorem score_formula (text : string) :
  Forall (fun r =>
            NoDup (Nlp.matches r)
            /\ (forall m, In m (Nlp.matches r)
                          <-> In m (Spec.allMatches text (Nlp.indicator r)))
            /\ Nlp.score r = Spec.formula (length (Nlp.matches r))
                                          (Nlp.analyzeSentiment text)
            /\ (0 <= Nlp.score r <= 10)%Z)
         (Nlp.analyzeText text).
Proof.
  apply analyzeText_Forall. intros p.
  rewrite analyzeIndicator_score, analyzeIndicator_matches.
  repeat split; try apply formula_bounds.
  - apply setOf_NoDup.
  - apply setOf_In.
  - apply setOf_In.
Qed.

(** C4 as stated fails: "Coup coup" holds one match when case is ignored,
    for a score of 2, and the code scores the first indicator 4. *)
Lemma score_counts_spellings :
  map Nlp.score (Nlp.analyzeText "Coup coup") = [4; 0; 0; 0]%Z
  /\ map (Spec.claimedScore "Coup coup") Nlp.processedIndicators
     = [2; 0; 0; 0]%Z
  /\ map Nlp.score (Nlp.analyzeText "Coup coup")
     <> map (Spec.claimedScore "Coup coup") Nlp.processedIndicators.
Proof.
  repeat split; try (vm_compute; reflexivity).
  vm_compute. discriminate.
Qed.

(** C10, as the code has it: for every text that is not blank (some
    character is left after trimming), [analyzeText] returns exactly one
    result per indicator, in the order of the ids 1, 2, 3, 4, and the
    indicator of the i-th result is the i-th static indicator (with its
    lower-cased keywords added). *)
Theorem analyzeText_one_result_per_indicator (text : string) :
  ~ Spec.blank text ->
  length (Nlp.analyzeText text) = 4%nat
  /\ map (fun r => Nlp.id (Nlp.indicator r)) (Nlp.analyzeText text)
     = [1; 2; 3; 4]%Z
  /\ map (fun r => Nlp.staticPart (Nlp.indicator r)) (Nlp.analyzeText text)
     = Indicators.INDICATORS
  /\ map Nlp.indicator (Nlp.analyzeText text) = Nlp.processedIndicators.
Proof.
  intros H. rewrite (analyzeText_not_blank text H).
  rewrite length_map, !map_map. simpl.
  repeat split; vm_compute; reflexivity.
Qed.

Lemma analyzeText_one_result_per_indicator_witness :
  map (fun r => Nlp.id (Nlp.indicator r)) (Nlp.analyzeText "coup")
  = [1; 2; 3; 4]%Z.
Proof.
  apply (analyzeText_one_result_per_indicator "coup").
  vm_compute. discriminate.
Defined.

(** C10 as stated fails: a single space is a text that is not empty, and
    [analyzeText] returns no result for it. *)
Lemma analyzeText_space_no_results :
  " "%string <> ""%string /\ Nlp.analyzeText " " = []
  /\ length (Nlp.analyzeText " ") <> 4%nat.
Proof.
  split; [discriminate |].
  split; [vm_compute; reflexivity | vm_compute; discriminate].
Qed.

End Scorer.

(* ===================================================================== *)
(** ** The example labeler *)
(* ===================================================================== *)

Section Labeler.

Import JS.
Import PDFExtractor.

Lemma scanKeywords_true (sentence : string) (keywords : list string) :
  scanKeywords sentence keywords = true
  <-> exists keyword,
        In keyword keywords
        /\ includes (toLowerCase sentence) (toLowerCase keyword) = true.
Proof.
  induction keywords as [| k ks IH]; simpl.
  - split; [discriminate | intros [? [[] _]]].
  - destruct (includes (toLowerCase sentence) (toLowerCase k)) eqn:E.
    + split; [| reflexivity]. intros _. exists k. auto.
    + rewrite IH. split.
      * intros [kw [Hin Hkw]]. exists kw. auto.
      * intros [kw [[<- | Hin] Hkw]]; [congruence | exists kw; auto].
Qed.

Lemma scanKeywords_mentions (sentence : string) (ind : Indicators.Indicator) :
  scanKeywords sentence (Indicators.keywords ind) = true
  <-> Spec.mentions sentence ind.
Proof. apply scanKeywords_true. Qed.

(** The scan returns the position of the first indicator that the sentence
    mentions, counted from 1. *)
Lemma scanIndicators_first (sentence : string) (before after : list Indicators.Indicator)
  (ind : Indicators.Indicator) (i : nat) :
  Spec.mentions sentence ind ->
  (forall earlier, In earlier before -> ~ Spec.mentions sentence earlier) ->
  scanIndicators sentence i (before ++ ind :: after)
  = Some (Z.of_nat (i + length before) + 1)%Z.
Proof.
  intros Hm. revert i. induction before as [| b before IH]; intros i Hearlier.
  - simpl. apply scanKeywords_mentions in Hm. rewrite Hm.
    now rewrite Nat.add_0_r.
  - simpl. destruct (scanKeywords sentence (Indicators.keywords b)) eqn:E.
    + exfalso. apply (Hearlier b); [now left |].
      now apply scanKeywords_mentions.
    + rewrite IH.
      * do 2 f_equal. lia.
      * intros e He. apply Hearlier. now right.
Qed.

(** No indicator mentioned: the scan finds nothing. *)
Lemma scanIndicators_none (sentence : string) (inds : list Indicators.Indicator)
  (i : nat) :
  (forall ind, In ind inds -> ~ Spec.mentions sentence ind) ->
  scanIndicators sentence i inds = None.
Proof.
  revert i. induction inds as [| b inds IH]; intros i H; simpl.
  - reflexivity.
  - destruct (scanKeywords sentence (Indicators.keywords b)) eqn:E.
    + exfalso. apply (H b); [now left |]. now apply scanKeywords_mentions.
    + apply IH. intros ind Hin. apply H. now right.
Qed.

(** In the static list the id of an indicator is its position, from 1. *)
Lemma static_id_position (before after : list Indicators.Indicator)
  (ind : Indicators.Indicator) :
  Indicators.INDICATORS = before ++ ind :: after ->
  Indicators.id ind = (Z.of_nat (length before) + 1)%Z.
Proof.
  intros H.
  assert (E : map Indicators.id Indicators.INDICATORS = [1; 2; 3; 4]%Z)
    by reflexivity.
  rewrite H, map_app in E. simpl in E.
  destruct before as [| b1 [| b2 [| b3 [| b4 tl]]]]; simpl in E;
    try (injection E; intros; subst; simpl; congruence).
  injection E. intros E' _ _ _ _.
  destruct (map Indicators.id tl); discriminate E'.
Qed.

Lemma findIndicator_first (sentence : string) (ind : Indicators.Indicator) :
  Spec.firstMentioned sentence ind ->
  findIndicator sentence = Some (Indicators.id ind).
Proof.
  intros [before [after [Hsplit [Hm Hearlier]]]].
  unfold findIndicator.
  change (firstn 4 Indicators.INDICATORS) with Indicators.INDICATORS.
  rewrite (static_id_position _ _ _ Hsplit), Hsplit.
  now rewrite (scanIndicators_first sentence before after ind 0 Hm Hearlier).
Qed.

Lemma processSentence_labeled (random : nat -> float) (draws : nat)
  (sentence : string) (ind : Indicators.Indicator) :
  (20 <= String.length (trim sentence))%nat ->
  Spec.firstMentioned sentence ind ->
  processSentence random draws sentence
  = ([mkExample (trim sentence) (JsNumber (number (Indicators.id ind)))],
     draws).
Proof.
  intros Hlen Hfirst. unfold processSentence.
  destruct (String.length (trim sentence) <? 20)%nat eqn:E.
  - apply Nat.ltb_lt in E. lia.
  - now rewrite (findIndicator_first sentence ind Hfirst).
Qed.

(** What one round of a loop pushes is in what the loop pushes. *)
Lemma forEach_In {A} (body : nat -> A -> list LabeledExample * nat)
  (l : list A) (x : A) (e : LabeledExample) :
  In x l ->
  (forall draws, In e (fst (body draws x))) ->
  forall draws, In e (fst (forEach body draws l)).
Proof.
  intros Hin Hbody. induction l as [| y l IH]; intros draws; [destruct Hin |].
  simpl. destruct (body draws y) as [pushed d1] eqn:E1.
  destruct (forEach body d1 l) as [pushed' d2] eqn:E2. simpl.
  apply in_or_app. destruct Hin as [-> | Hin].
  - left. specialize (Hbody draws). now rewrite E1 in Hbody.
  - right. specialize (IH Hin d1). now rewrite E2 in IH.
Qed.

Lemma processParagraph_short (random : nat -> float) (draws : nat)
  (paragraph : string) :
  (String.length (trim paragraph) <= 50)%nat ->
  processParagraph random draws paragraph = ([], draws).
Proof.
  intros H. unfold processParagraph.
  destruct (50 <? String.length (trim paragraph))%nat eqn:E; [| reflexivity].
  apply Nat.ltb_lt in E. lia.
Qed.

Lemma forEach_substantial (random : nat -> float) (paragraphs : list string) :
  forall draws,
    forEach (processParagraph random) draws paragraphs
    = forEach (Spec.labelSentences random) draws
              (filter Spec.substantial paragraphs).
Proof.
  induction paragraphs as [| p ps IH]; intros draws; [reflexivity |].
  simpl. unfold processParagraph at 1. unfold Spec.substantial at 1.
  destruct (50 <? String.length (trim p))%nat.
  - simpl. fold (Spec.labelSentences random draws p).
    destruct (Spec.labelSentences random draws p) as [pushed d1].
    now rewrite IH.
  - rewrite IH.
    now destruct (forEach (Spec.labelSentences random) draws
                          (filter Spec.substantial ps)).
Qed.

Example matchSentences_terminators :
  matchSentences "..Hello world. How are you?! trailing"
  = ["Hello world."; " How are you?!"]%string.
Proof. vm_compute. reflexivity. Qed.

(** The keyword of the first indicator decides, wherever a keyword of a
    later indicator stands in the sentence. *)
Example findIndicator_order :
  findIndicator "The enemy staged a coup." = Some 1%Z
  /\ findIndicator "The enemy is a threat." = Some 2%Z
  /\ findIndicator "Nothing to see here." = None.
Proof. repeat split; vm_compute; reflexivity. Qed.

(** C6, as the code has it: in a paragraph the labeler looks into (trimmed
    length above 50), every sentence of trimmed length at least 20 that
    contains a keyword of some indicator, case ignored, yields exactly one
    example, labeled with the id of the first indicator in the order 1 to 4
    one of whose keywords it contains; the scan stops there and no later
    indicator changes the label. *)
Theorem first_indicator_wins (random : nat -> float)
  (extractedText paragraph sentence : string) (ind : Indicators.Indicator) :
  ~ Spec.blank extractedText ->
  In paragraph (splitParagraphs extractedText) ->
  Spec.substantial paragraph = true ->
  In sentence (matchSentences paragraph) ->
  (20 <= String.length (trim sentence))%nat ->
  Spec.firstMentioned sentence ind ->
  let example :=
    mkExample (trim sentence) (JsNumber (number (Indicators.id ind))) in
  (forall draws, processSentence random draws sentence = ([example], draws))
  /\ exists examples,
       extractTrainingData random extractedText = inr examples
       /\ In example examples.
Proof.
  intros Hblank Hpar Hsub Hsent Hlen Hfirst example. split.
  - intros draws. now apply processSentence_labeled.
  - unfold extractTrainingData.
    destruct (String.eqb extractedText ""
              || (String.length (trim extractedText) =? 0)%nat)%bool eqn:G.
    { apply guard_blank in G. contradiction. }
    eexists. split; [reflexivity |].
    apply (forEach_In _ _ paragraph); [assumption |].
    intros draws. unfold processParagraph.
    unfold Spec.substantial in Hsub. rewrite Hsub.
    apply (forEach_In _ _ sentence); [assumption |].
    intros d. unfold example.
    rewrite (processSentence_labeled random d sentence ind Hlen Hfirst).
    now left.
Qed.

Lemma longParagraph_first : Spec.firstMentioned Spec.longParagraph Spec.firstIndicator.
Proof.
  exists [], (tl Indicators.INDICATORS). split; [reflexivity |]. split.
  - exists "coup"%string. split; [simpl; tauto | vm_compute; reflexivity].
  - intros earlier [].
Qed.

Lemma first_indicator_wins_witness :
  (forall draws,
     processSentence (fun _ => 0%float) draws Spec.longParagraph
     = ([mkExample (trim Spec.longParagraph)
                   (JsNumber (number (Indicators.id Spec.firstIndicator)))],
        draws))
  /\ exists examples,
       extractTrainingData (fun _ => 0%float) Spec.longParagraph = inr examples
       /\ In (mkExample (trim Spec.longParagraph)
                        (JsNumber (number (Indicators.id Spec.firstIndicator))))
             examples.
Proof.
  apply (first_indicator_wins (fun _ => 0%float) Spec.longParagraph
           Spec.longParagraph Spec.longParagraph Spec.firstIndicator).
  - vm_compute. discriminate.
  - vm_compute. now left.
  - vm_compute. reflexivity.
  - vm_compute. now left.
  - apply Nat.leb_le. vm_compute. reflexivity.
  - exact longParagraph_first.
Defined.

(** C6 as stated fails: the one sentence of this text has 30 characters, so
    it passes the filter on the length of sentences, and it names a keyword
    of the first indicator; it gets no label, because its paragraph has no
    more than 50 characters. *)
Lemma short_paragraph_sentence_unlabeled :
  matchSentences Spec.shortParagraph = [Spec.shortParagraph]
  /\ (String.length (trim Spec.shortParagraph) <? 20)%nat = false
  /\ findIndicator Spec.shortParagraph = Some 1%Z
  /\ splitParagraphs Spec.shortParagraph = [Spec.shortParagraph]
  /\ extractTrainingData (fun _ => 0%float) Spec.shortParagraph = inr [].
Proof. repeat split; vm_compute; reflexivity. Qed.

(** C9: the labeler skips every paragraph whose trimmed length is at most
    50 entirely: it pushes no example for it and draws no random number,
    whatever its sentences hold, so that the examples of a text are those
    of the sentences of its paragraphs of trimmed length above 50. *)
Theorem short_paragraph_skipped (random : nat -> float) (draws : nat)
  (paragraph : string) :
  (String.length (trim paragraph) <= 50)%nat ->
  processParagraph random draws paragraph = ([], draws)
  /\ (forall before after d,
        forEach (processParagraph random) d (before ++ paragraph :: after)
        = forEach (processParagraph random) d (before ++ after))
  /\ (forall extractedText d,
        forEach (processParagraph random) d (splitParagraphs extractedText)
        = forEach (Spec.labelSentences random) d
                  (filter Spec.substantial (splitParagraphs extractedText))).
Proof.
  intros H. split; [now apply processParagraph_short |]. split.
  - intros before after d.
    rewrite !forEach_substantial, !filter_app. simpl.
    unfold Spec.substantial at 2.
    destruct (50 <? String.length (trim paragraph))%nat eqn:E; [| reflexivity].
    apply Nat.ltb_lt in E. lia.
  - intros extractedText d. apply forEach_substantial.
Qed.

Lemma short_paragraph_skipped_witness :
  processParagraph (fun _ => 0%float) 0 Spec.shortParagraph = ([], 0%nat).
Proof.
  apply (short_paragraph_skipped (fun _ => 0%float) 0 Spec.shortParagraph).
  apply Nat.leb_le. vm_compute. reflexivity.
Defined.

End Labeler.

(* ===================================================================== *)
(** ** The vectorizer *)
(* ===================================================================== *)

Section Vectorizer.

Import JS.
Import AuthoritarianClassifier.

Lemma setAt_length (vector : list Slot) (index : nat) (count : Slot) :
  length (setAt vector index count) = length vector.
Proof.
  revert index. induction vector as [| x r IH]; intros [| i]; simpl; auto.
Qed.

Lemma setAt_app (done rest : list Slot) (x count : Slot) :
  setAt (done ++ x :: rest) (length done) count = done ++ count :: rest.
Proof. induction done as [| y done IH]; simpl; [reflexivity | now rewrite IH]. Qed.

(** The loop writes the counts of the entries one after the other from the
    position it starts at, as long as there is room, and touches nothing
    else. *)
Lemma fillVector_spec (es : list (string * Slot)) :
  forall (done : list Slot) (k : nat),
    length done + k = maxSequenceLength ->
    fillVector (done ++ repeat (Num 0) k) (length done) es
    = done ++ firstn k (map snd es) ++ repeat (Num 0) (k - length es).
Proof.
  induction es as [| [word count] es IH]; intros done k Hlen.
  - simpl. now rewrite firstn_nil, Nat.sub_0_r.
  - simpl fillVector.
    destruct (length done <? maxSequenceLength)%nat eqn:E.
    + apply Nat.ltb_lt in E. destruct k as [| k]; [lia |].
      simpl repeat. rewrite setAt_app.
      replace (S (length done)) with (length (done ++ [count]))
        by (rewrite length_app; simpl; lia).
      replace (done ++ count :: repeat (Num 0) k)
        with ((done ++ [count]) ++ repeat (Num 0) k)
        by (now rewrite <- app_assoc).
      rewrite IH by (rewrite length_app; simpl; lia).
      now rewrite <- app_assoc.
    + apply Nat.ltb_ge in E. assert (k = 0%nat) by lia. subst k.
      reflexivity.
Qed.

(** The vector is the counts of the first 50 entries of [wordCounts],
    followed by zeros up to the length 50. *)
Lemma textToVector_spec (text : string) :
  textToVector text
  = firstn maxSequenceLength (map snd (entries (wordCountsOf text)))
    ++ repeat (Num 0)
              (maxSequenceLength - length (entries (wordCountsOf text))).
Proof.
  unfold textToVector.
  exact (fillVector_spec (entries (wordCountsOf text)) [] maxSequenceLength
                         eq_refl).
Qed.

(** The part of C7 on the length: the vector has exactly 50 entries for
    every text. *)
Lemma textToVector_length (text : string) :
  length (textToVector text) = 50%nat.
Proof.
  rewrite textToVector_spec, length_app, length_firstn, repeat_length,
    length_map.
  unfold maxSequenceLength. lia.
Qed.

Lemma getOwn_number (wordCounts : WordCounts) (word : string) (v : Slot) :
  Spec.allNumbers wordCounts -> getOwn wordCounts word = Some v ->
  Spec.isNumber v = true.
Proof.
  intros Hall. induction Hall as [| [k old] r Hold _ IH]; simpl.
  - discriminate.
  - destruct (String.eqb k word); [| exact IH].
    intros E. injection E as <-. exact Hold.
Qed.

Lemma setOwn_numbers (wordCounts : WordCounts) (word : string) (v : Slot) :
  Spec.allNumbers wordCounts -> Spec.isNumber v = true ->
  Spec.allNumbers (setOwn wordCounts word v).
Proof.
  intros Hall Hv. induction Hall as [| [k old] r Hold Hr IH]; simpl.
  - repeat constructor. exact Hv.
  - destruct (String.eqb k word); constructor; assumption.
Qed.

Lemma countWord_numbers (wordCounts : WordCounts) (word : string) :
  Spec.allNumbers wordCounts -> word <> "constructor"%string ->
  Spec.allNumbers (countWord wordCounts word).
Proof.
  intros Hall Hne. unfold countWord.
  destruct (2 <? String.length word)%nat; [| exact Hall].
  unfold assign. destruct (String.eqb word "__proto__") eqn:P; [exact Hall |].
  apply setOwn_numbers; [exact Hall |].
  unfold incremented. destruct (getOwn wordCounts word) as [v |] eqn:G.
  - pose proof (getOwn_number _ _ _ Hall G) as Hv.
    destruct v; [reflexivity | discriminate Hv].
  - rewrite P. destruct (String.eqb word "constructor") eqn:C; [| reflexivity].
    apply String.eqb_eq in C. contradiction.
Qed.

Lemma wordCounts_numbers (words : list string) :
  forall wordCounts,
    Spec.allNumbers wordCounts -> ~ In "constructor"%string words ->
    Spec.allNumbers (fold_left countWord words wordCounts).
Proof.
  induction words as [| w words IH]; intros wordCounts Hall Hnot; simpl.
  - exact Hall.
  - apply IH.
    + apply countWord_numbers; [exact Hall |].
      intros ->. apply Hnot. now left.
    + intros Hin. apply Hnot. now right.
Qed.

Lemma insertByIndex_In (i : N) (e : string * Slot)
  (l : list (N * (string * Slot))) (x : N * (string * Slot)) :
  In x (insertByIndex i e l) -> x = (i, e) \/ In x l.
Proof.
  induction l as [| [j e'] r IH]; simpl.
  - intros [<- | []]. now left.
  - destruct (i <? j)%N; simpl.
    + intros [<- | H]; [now left | now right].
    + intros [<- | H]; [right; now left |].
      destruct (IH H) as [-> | Hr]; [now left | right; now right].
Qed.

Lemma indexed_In (wordCounts : WordCounts) :
  forall acc x,
    In x (fold_left (fun acc e =>
                       match arrayIndex (fst e) with
                       | Some i => insertByIndex i e acc
                       | None => acc
                       end)
                    wordCounts acc) ->
    In x acc \/ In (snd x) wordCounts.
Proof.
  induction wordCounts as [| e r IH]; intros acc x; simpl.
  - now left.
  - intros H. destruct (IH _ _ H) as [Hacc | Hr]; [| right; now right].
    destruct (arrayIndex (fst e)); [| now left].
    destruct (insertByIndex_In _ _ _ _ Hacc) as [-> | Hin];
      [right; now left | now left].
Qed.

Lemma entries_In (wordCounts : WordCounts) (e : string * Slot) :
  In e (entries wordCounts) -> In e wordCounts.
Proof.
  unfold entries, indexedEntries, namedEntries. intros H.
  apply in_app_or in H. destruct H as [H | H].
  - apply in_map_iff in H. destruct H as [x [<- Hx]].
    destruct (indexed_In _ _ _ Hx) as [[] | Hin]. exact Hin.
  - apply filter_In in H. tauto.
Qed.

(** The part of C7 on the entries, away from the missed case: for a text
    none of whose tokens is the word "constructor", every entry of the
    vector is a number, a count or the 0 the vector was filled with. *)
Lemma textToVector_numbers (text : string) :
  ~ In "constructor"%string (tokenize text) ->
  Forall (fun v => exists n, v = Num n) (textToVector text).
Proof.
  intros Hnot.
  assert (Hall : Spec.allNumbers (wordCountsOf text)).
  { apply wordCounts_numbers; [constructor | exact Hnot]. }
  rewrite textToVector_spec. apply Forall_app. split.
  - apply Forall_forall. intros v Hv.
    assert (Hin : In v (map snd (entries (wordCountsOf text)))).
    { rewrite <- (firstn_skipn maxSequenceLength). apply in_or_app. now left. }
    apply in_map_iff in Hin. destruct Hin as [e [<- He]].
    apply entries_In in He.
    unfold Spec.allNumbers in Hall. rewrite Forall_forall in Hall.
    specialize (Hall e He). clear Hv. destruct (snd e) as [n | t];
      [now exists n | discriminate Hall].
  - apply Forall_forall. intros v Hv. apply repeat_spec in Hv.
    now exists 0%N.
Qed.

Example textToVector_empty :
  textToVector "" = repeat (Num 0) 50.
Proof. vm_compute. reflexivity. Qed.

(** Keys that are array indices come first, in numeric order, whatever the
    order of the words in the text. *)
Example textToVector_entries_order :
  entries (wordCountsOf "the cat, the dog 2024 and 100 cats; 007")
  = [ ("100", Num 1); ("2024", Num 1); ("the", Num 2); ("cat", Num 1);
      ("dog", Num 1); ("and", Num 1); ("cats", Num 1); ("007", Num 1) ]%string.
Proof. vm_compute. reflexivity. Qed.

(** Tokens beyond the first 50 are dropped. *)
Example textToVector_sixty_tokens :
  length (entries (wordCountsOf Spec.sixtyTokens)) = 60%nat
  /\ textToVector Spec.sixtyTokens = repeat (Num 1) 50.
Proof. split; vm_compute; reflexivity. Qed.

(** C7 at the text "constructor": the first entry of the vector is not a
    number.  [wordCounts["constructor"]] reads the function [Object] that
    every object inherits, [(Object || 0) + 1] is the string form of that
    function followed by 1, and this string is stored as the count and
    written into the vector. *)
Theorem textToVector_constructor_not_number :
  nth_error (textToVector "constructor") 0
  = Some (Str "function Object() { [native code] }1")
  /\ forallb Spec.isNumber (textToVector "constructor") = false
  /\ length (textToVector "constructor") = 50%nat.
Proof. repeat split; vm_compute; reflexivity. Qed.

End Vectorizer.

(* ===================================================================== *)
(** ** The classifier *)
(* ===================================================================== *)

Section Classifier.

Import JS.
Import AuthoritarianClassifier.

Context {Model : Type}.

Lemma ready_cases (this : Classifier Model) :
  Spec.ready this = true
  <-> exists m, model this = Some m /\ isModelReady this = true.
Proof.
  unfold Spec.ready. destruct (model this) as [m |].
  - split; [intros H; now exists m | now intros [m' [_ H]]].
  - split; [discriminate | intros [m [H _]]; discriminate].
Qed.

(** The constructor leaves a model that is ready as soon as one of the two
    architectures builds. *)
Lemma create_ready (tf : TensorFlow Model) :
  Spec.ready (create tf)
  = match sequentialMain tf, sequentialSimple tf with
    | None, None => false
    | _, _ => true
    end.
Proof.
  unfold create, buildModel, buildSimpleModel, Spec.ready.
  destruct (sequentialMain tf), (sequentialSimple tf); reflexivity.
Qed.


(** C1, as the code has it: for every text, [predict] returns the neutral
    prediction (class 0, probability 1 for class 0 and 0 for the four
    indicators) whenever the model is not ready, that is when there is no
    model or [isModelReady] is false. *)
Theorem predict_not_ready (tf : TensorFlow Model) (this : Classifier Model)
  (text : string) :
  Spec.ready this = false ->
  predict tf this text = neutral
  /\ predictedClass (predict tf this text) = 0%Z
  /\ notAuthoritarian (predict tf this text) = 1%float
  /\ indicator1 (predict tf this text) = 0%float
  /\ indicator2 (predict tf this text) = 0%float
  /\ indicator3 (predict tf this text) = 0%float
  /\ indicator4 (predict tf this text) = 0%float.
Proof.
  intros H. assert (E : predict tf this text = neutral).
  { unfold predict. unfold Spec.ready in H.
    destruct (model this); [rewrite H |]; reflexivity. }
  rewrite E. repeat split.
Qed.

(** C5, as the code has it: when the model is ready, [train] with fewer
    than 10 accumulated examples fails with the error that reports there
    is not enough training data and leaves the classifier as it was, and
    with 10 or more it passes the check on the size and fits the model. *)
Theorem train_size_check (tf : TensorFlow Model) (epochs batchSize : Z)
  (this : Classifier Model) :
  Spec.ready this = true ->
  ((length (trainingData this) < 10)%nat ->
   train tf epochs batchSize this = (this, Threw notEnoughData))
  /\ ((10 <= length (trainingData this))%nat ->
      exists m,
        model this = Some m
        /\ train tf epochs batchSize this
           = match fit tf m
                       (map (fun item => textToVector (text item))
                            (trainingData this))
                       (map (fun item => oneHot (label item))
                            (trainingData this))
                       (Z.min epochs 5) (Z.min batchSize 4)
             with
             | inl trained =>
                 (setStatus (setModel this (Some trained) true)
                            "Model trained successfully",
                  History)
             | inr message =>
                 (setStatus (buildSimpleModel tf this)
                            ("Training failed: " ++ message),
                  Threw ("Training failed: " ++ message))
             end
        /\ snd (train tf epochs batchSize this) <> Threw notEnoughData).
Proof.
  intros H. apply ready_cases in H. destruct H as [m [Hm Hr]]. split.
  - intros Hlt. unfold train. rewrite Hm, Hr. cbv zeta. rewrite Hm.
    apply Nat.ltb_lt in Hlt. now rewrite Hlt.
  - intros Hge. exists m. split; [assumption |].
    unfold train. rewrite Hm, Hr. cbv zeta. rewrite Hm.
    apply Nat.ltb_ge in Hge. rewrite Hge, Hr.
    split; [reflexivity |].
    destruct (fit tf m _ _ _ _); simpl; discriminate.
Qed.

(** When the model is not ready, [train] starts by building one: the check
    on the size applies to the classifier so rebuilt, and when nothing can
    be built [train] fails before that check. *)
Lemma train_not_ready (tf : TensorFlow Model) (epochs batchSize : Z)
  (this : Classifier Model) :
  Spec.ready this = false ->
  match model (buildModel tf this) with
  | None =>
      train tf epochs batchSize this = (buildModel tf this, Threw notInitialized)
  | Some _ =>
      (length (trainingData this) < 10)%nat ->
      train tf epochs batchSize this = (buildModel tf this, Threw notEnoughData)
  end.
Proof.
  intros H. unfold train.
  assert (E : match model this, isModelReady this with
              | Some _, true => this
              | _, _ => buildModel tf this
              end = buildModel tf this).
  { unfold Spec.ready in H. destruct (model this); [rewrite H |]; reflexivity. }
  rewrite E. destruct (model (buildModel tf this)) eqn:Hb; [| reflexivity].
  intros Hlt.
  assert (Hd : trainingData (buildModel tf this) = trainingData this).
  { unfold buildModel, buildSimpleModel.
    destruct (sequentialMain tf), (sequentialSimple tf); reflexivity. }
  rewrite Hd. apply Nat.ltb_lt in Hlt. now rewrite Hlt.
Qed.

(** C8: [addTrainingData] accepts and appends an example whose text is not
    empty and whose label is any number of the closed interval [0,4],
    integer or not: the validation asks for a number within the range and
    nothing more. *)
Theorem addTrainingData_accepts_range (this : Classifier Model)
  (item : LabeledExample) (x : float) :
  text item <> ""%string ->
  label item = JsNumber x ->
  PrimFloat.leb 0%float x = true ->
  PrimFloat.leb x 4%float = true ->
  validItem item = true
  /\ addTrainingData this [item]
     = (mkClassifier (model this) (isModelReady this)
                     (trainingData this ++ [item]) (trainingStatus this),
        S (length (trainingData this)))
  /\ forall before after,
       In item (trainingData
                  (fst (addTrainingData this (before ++ item :: after)))).
Proof.
  intros Htext Hlabel Hlo Hhi.
  assert (V : validItem item = true).
  { unfold validItem. rewrite Hlabel, Hlo, Hhi.
    destruct (String.eqb (text item) "") eqn:E; [| reflexivity].
    apply String.eqb_eq in E. contradiction. }
  split; [exact V |]. split.
  - unfold addTrainingData. simpl. rewrite V. simpl.
    rewrite length_app. simpl. f_equal. lia.
  - intros before after. unfold addTrainingData. simpl.
    apply in_or_app. right. apply filter_In. split; [| exact V].
    apply in_or_app. right. now left.
Qed.

End Classifier.

Section ClassifierInstances.

Import JS.
Import AuthoritarianClassifier.

Lemma predict_not_ready_witness :
  predict Spec.brokenTf (create Spec.brokenTf) "suspend the constitution"
  = neutral.
Proof.
  apply (predict_not_ready Spec.brokenTf (create Spec.brokenTf)
           "suspend the constitution").
  reflexivity.
Defined.

(** C1 as stated fails: the constructor builds the model and marks it
    ready, so that before any training [predict] already runs the forward
    pass; where that yields the uniform distribution the probability
    reported for class 0 is 0.2 and the four others are not 0. *)
Lemma predict_before_training_not_neutral :
  predict Spec.uniformTf (create Spec.uniformTf) ""
  = mkPrediction 0.2%float 0.2%float 0.2%float 0.2%float 0.2%float 0
  /\ predict Spec.uniformTf (create Spec.uniformTf) "" <> neutral.
Proof.
  split; [vm_compute; reflexivity |].
  intros H.
  apply (f_equal (fun p => PrimFloat.ltb (notAuthoritarian p) 1%float)) in H.
  vm_compute in H. discriminate H.
Qed.

Lemma train_size_check_witness :
  train Spec.uniformTf 3 8
        (fst (addTrainingData (create Spec.uniformTf) Spec.nineExamples))
  = (fst (addTrainingData (create Spec.uniformTf) Spec.nineExamples),
     Threw notEnoughData).
Proof.
  apply (train_size_check Spec.uniformTf 3 8
           (fst (addTrainingData (create Spec.uniformTf) Spec.nineExamples))).
  - reflexivity.
  - apply Nat.ltb_lt. vm_compute. reflexivity.
Defined.

(** C5 as stated fails: where no network can be built, [train] with nine
    accumulated examples fails with the error that the model is not
    initialised, raised before the size of the training set is looked at;
    and where the network builds again, [train] replaces the model before
    it fails on the size. *)
Lemma train_nine_examples_not_initialized :
  length (trainingData
            (fst (addTrainingData (create Spec.brokenTf) Spec.nineExamples)))
  = 9%nat
  /\ snd (train Spec.brokenTf 3 8
            (fst (addTrainingData (create Spec.brokenTf) Spec.nineExamples)))
     = Threw "Model not initialized. Please rebuild the model."
  /\ snd (train Spec.brokenTf 3 8
            (fst (addTrainingData (create Spec.brokenTf) Spec.nineExamples)))
     <> Threw notEnoughData
  /\ snd (train Spec.uniformTf 3 8
            (fst (addTrainingData (create Spec.brokenTf) Spec.nineExamples)))
     = Threw notEnoughData
  /\ model (fst (train Spec.uniformTf 3 8
                   (fst (addTrainingData (create Spec.brokenTf)
                                         Spec.nineExamples))))
     <> model (fst (addTrainingData (create Spec.brokenTf) Spec.nineExamples)).
Proof.
  repeat split; try (vm_compute; reflexivity); vm_compute; discriminate.
Qed.

Lemma addTrainingData_accepts_range_witness :
  addTrainingData (create Spec.uniformTf) [mkExample "x" (JsNumber 2.5%float)]
  = (mkClassifier (model (create Spec.uniformTf))
                  (isModelReady (create Spec.uniformTf))
                  (trainingData (create Spec.uniformTf)
                   ++ [mkExample "x" (JsNumber 2.5%float)])
                  (trainingStatus (create Spec.uniformTf)),
     S (length (trainingData (create Spec.uniformTf)))).
Proof.
  apply (addTrainingData_accepts_range (create Spec.uniformTf)
           (mkExample "x" (JsNumber 2.5%float)) 2.5%float).
  - discriminate.
  - reflexivity.
  - reflexivity.
  - reflexivity.
Defined.

End ClassifierInstances.

(* ===================================================================== *)
(** ** Strings as lists of code units *)
(* ===================================================================== *)

Section Strings.

Import JS.

Lemma chars_str (l : list ascii) : chars (str l) = l.
Proof. apply list_ascii_of_string_of_list_ascii. Qed.

Lemma str_chars (s : string) : str (chars s) = s.
Proof. apply string_of_list_ascii_of_string. Qed.

Lemma length_str (l : list ascii) : String.length (str l) = length l.
Proof. induction l as [| c l IH]; simpl; [reflexivity | now rewrite IH]. Qed.

Lemma length_chars (s : string) : length (chars s) = String.length s.
Proof. rewrite <- (str_chars s) at 2. now rewrite length_str. Qed.

Lemma lastChar_app_cons (a l : list ascii) (c : ascii) :
  Spec.lastChar (a ++ c :: l) = Spec.lastChar (c :: l).
Proof.
  unfold Spec.lastChar. rewrite rev_app_distr.
  simpl. destruct (rev l) as [| x r] eqn:E; simpl.
  - reflexivity.
  - reflexivity.
Qed.

Lemma lastChar_optList (prev : option ascii) :
  Spec.lastChar (Spec.optList prev) = prev.
Proof. now destruct prev. Qed.

End Strings.

(* ===================================================================== *)
(** ** The scorer: what a match is *)
(* ===================================================================== *)

Section Matches.

Import JS.

Lemma matchLiteral_sound (keyword : list ascii) :
  forall text m after,
    Nlp.matchLiteral keyword text = Some (m, after) ->
    text = m ++ after /\ map canonicalize m = map canonicalize keyword.
Proof.
  induction keyword as [| k keyword IH]; intros text m after H.
  - simpl in H. injection H as <- <-. now split.
  - destruct text as [| c text]; simpl in H; [discriminate |].
    destruct (Ascii.eqb (canonicalize k) (canonicalize c)) eqn:E;
      [| discriminate].
    destruct (Nlp.matchLiteral keyword text) as [[m' after'] |] eqn:R;
      [| discriminate].
    injection H as <- <-. destruct (IH _ _ _ R) as [-> Hm].
    apply Ascii.eqb_eq in E. split; [reflexivity |].
    simpl. now rewrite Hm, E.
Qed.

Lemma matchAt_sound (keyword : list ascii) (prev : option ascii)
  (text m : list ascii) :
  Nlp.matchAt keyword prev text = Some m ->
  exists post,
    text = m ++ post
    /\ map canonicalize m = map canonicalize keyword
    /\ Nlp.wordBoundary prev (hd_error (m ++ post)) = true
    /\ Nlp.wordBoundary (Spec.lastChar (Spec.optList prev ++ m))
                        (hd_error post) = true.
Proof.
  unfold Nlp.matchAt. intros H.
  destruct (Nlp.wordBoundary prev (hd_error text)) eqn:B; [| discriminate].
  destruct (Nlp.matchLiteral keyword text) as [[m' after] |] eqn:L;
    [| discriminate].
  destruct (Nlp.wordBoundary _ (hd_error after)) eqn:B'; [| discriminate].
  injection H as <-. destruct (matchLiteral_sound _ _ _ _ L) as [-> Hm].
  exists after. repeat split; try assumption.
  unfold Spec.lastChar. rewrite rev_app_distr.
  replace (rev (Spec.optList prev)) with (Spec.optList prev)
    by now destruct prev.
  exact B'.
Qed.

(** Every match the search reports stands in the text at the index
    reported, spells the keyword when case is ignored, and lies between two
    word boundaries. *)
Lemma execAll_sound (keyword : list ascii) (text : list ascii) :
  forall skip index prev i m,
    In (i, m) (Nlp.execAll keyword skip index prev text) ->
    exists pre post,
      text = pre ++ m ++ post
      /\ i = (index + length pre)%nat
      /\ map canonicalize m = map canonicalize keyword
      /\ Nlp.wordBoundary (Spec.lastChar (Spec.optList prev ++ pre))
                          (hd_error (m ++ post)) = true
      /\ Nlp.wordBoundary (Spec.lastChar (Spec.optList prev ++ pre ++ m))
                          (hd_error post) = true.
Proof.
  induction text as [| c rest IH]; intros skip index prev i m H;
    [destruct H |].
  assert (Later :
    forall k, In (i, m) (Nlp.execAll keyword k (S index) (Some c) rest) ->
    exists pre post,
      c :: rest = pre ++ m ++ post
      /\ i = (index + length pre)%nat
      /\ map canonicalize m = map canonicalize keyword
      /\ Nlp.wordBoundary (Spec.lastChar (Spec.optList prev ++ pre))
                          (hd_error (m ++ post)) = true
      /\ Nlp.wordBoundary (Spec.lastChar (Spec.optList prev ++ pre ++ m))
                          (hd_error post) = true).
  { intros k Hk.
    destruct (IH _ _ _ _ _ Hk) as [pre [post [-> [-> [Hm [B1 B2]]]]]].
    exists (c :: pre), post. simpl in B1, B2.
    repeat split; try assumption.
    - simpl. lia.
    - now rewrite lastChar_app_cons.
    - simpl. now rewrite lastChar_app_cons. }
  simpl in H. destruct skip as [| k]; [| now apply (Later k)].
  destruct (Nlp.matchAt keyword prev (c :: rest)) as [m' |] eqn:A;
    [| now apply (Later 0%nat)].
  destruct H as [H | H]; [| now apply (Later (length m' - 1)%nat)].
  injection H as <- <-.
  destruct (matchAt_sound _ _ _ _ A) as [post [E [Hm [B1 B2]]]].
  exists [], post. rewrite app_nil_r. simpl.
  repeat split; try assumption.
  - lia.
  - now rewrite lastChar_optList.
Qed.

End Matches.

Section Occurrences.

Import JS.

Lemma substring_context (pre m post : list ascii) :
  substring (pre ++ m ++ post) (length pre - 30)
            (Nat.min (length (pre ++ m ++ post)) (length pre + length m + 30))
  = Spec.lastn 30 pre ++ m ++ firstn 30 post.
Proof.
  unfold substring, Spec.lastn.
  rewrite skipn_app.
  replace (length pre - 30 - length pre)%nat with 0%nat by lia.
  rewrite skipn_O.
  set (A := skipn (length pre - 30) pre).
  assert (HA : length A = (length pre - (length pre - 30))%nat)
    by (unfold A; now rewrite length_skipn).
  rewrite !length_app.
  rewrite firstn_app, firstn_all2 by lia.
  f_equal. rewrite firstn_app, firstn_all2 by lia.
  f_equal.
  destruct (Nat.le_gt_cases (length post) 30) as [Hle | Hgt].
  - rewrite !firstn_all2 by lia. reflexivity.
  - f_equal. lia.
Qed.

(** What [regexExecAll] reports, read on the text. *)
Lemma regexExecAll_sound (keyword text : string) (i : nat) (m : string) :
  In (i, m) (Nlp.regexExecAll keyword text) ->
  exists pre post,
    chars text = pre ++ chars m ++ post
    /\ i = length pre
    /\ map canonicalize (chars m) = map canonicalize (chars keyword)
    /\ Nlp.wordBoundary (Spec.lastChar pre) (hd_error (chars m ++ post))
       = true
    /\ Nlp.wordBoundary (Spec.lastChar (pre ++ chars m)) (hd_error post)
       = true.
Proof.
  unfold Nlp.regexExecAll. intros H. apply in_map_iff in H.
  destruct H as [[j ml] [E H]]. simpl in E. injection E as -> <-.
  destruct (execAll_sound _ _ _ _ _ _ _ H)
    as [pre [post [Ht [Hi [Hm [B1 B2]]]]]].
  exists pre, post. rewrite chars_str. simpl in Hi, B1, B2.
  repeat split; assumption.
Qed.

Lemma keywordDetails_sound (text keyword : string) (d : Nlp.MatchDetail) :
  In d (Nlp.keywordDetails text keyword) ->
  exists pre post,
    chars text = pre ++ chars (Nlp.original d) ++ post
    /\ map canonicalize (chars (Nlp.original d))
       = map canonicalize (chars keyword)
    /\ Nlp.wordBoundary (Spec.lastChar pre)
                        (hd_error (chars (Nlp.original d) ++ post)) = true
    /\ Nlp.wordBoundary (Spec.lastChar (pre ++ chars (Nlp.original d)))
                        (hd_error post) = true
    /\ chars (Nlp.context d)
       = Spec.lastn 30 pre ++ chars (Nlp.original d) ++ firstn 30 post.
Proof.
  unfold Nlp.keywordDetails. intros H. apply in_map_iff in H.
  destruct H as [[i m] [<- H]]. simpl.
  destruct (regexExecAll_sound _ _ _ _ H)
    as [pre [post [Ht [-> [Hm [B1 B2]]]]]].
  exists pre, post. repeat split; try assumption.
  unfold Nlp.contextOf. rewrite chars_str, <- !length_chars, Ht.
  assert (L : length (chars keyword) = length (chars m)).
  { apply (f_equal (@length ascii)) in Hm. now rewrite !length_map in Hm. }
  rewrite L. simpl Nat.max. apply substring_context.
Qed.

Lemma details_originals (text : string) (keywords : list string) :
  map Nlp.original (flat_map (Nlp.keywordDetails text) keywords)
  = flat_map (Nlp.keywordMatches text) keywords.
Proof.
  induction keywords as [| k ks IH]; [reflexivity |].
  simpl. rewrite map_app, IH. f_equal.
  unfold Nlp.keywordDetails, Nlp.keywordMatches, Nlp.regexMatchAll.
  rewrite map_map. reflexivity.
Qed.

Lemma sameDetail_eq (a b : Nlp.MatchDetail) :
  Nlp.sameDetail a b = true <-> a = b.
Proof.
  unfold Nlp.sameDetail. rewrite andb_true_iff, !String.eqb_eq.
  destruct a, b; simpl. split.
  - intros [-> ->]. reflexivity.
  - intros E. injection E as -> ->. now split.
Qed.

Lemma seen_In (seen : list Nlp.MatchDetail) (v : Nlp.MatchDetail) :
  existsb (fun t => Nlp.sameDetail t v) seen = true <-> In v seen.
Proof.
  rewrite existsb_exists. split.
  - intros [t [Hin E]]. apply sameDetail_eq in E. now subst.
  - intros Hin. exists v. split; [assumption | now apply sameDetail_eq].
Qed.

Lemma firstOccurrences_In (l seen : list Nlp.MatchDetail)
  (d : Nlp.MatchDetail) :
  In d (Nlp.firstOccurrences seen l) <-> In d l /\ ~ In d seen.
Proof.
  revert seen. induction l as [| v l IH]; intros seen; simpl; [tauto |].
  destruct (existsb (fun t => Nlp.sameDetail t v) seen) eqn:E.
  - apply seen_In in E. rewrite IH. split; [tauto |].
    intros [[-> | H] Hs]; [contradiction | tauto].
  - assert (Hn : ~ In v seen).
    { intros Hin. apply seen_In in Hin. congruence. }
    simpl. rewrite IH, in_app_iff. simpl. split.
    + intros [<- | [H Hs]]; tauto.
    + intros [[<- | H] Hs]; [now left |].
      destruct (Nlp.sameDetail v d) eqn:S.
      * left. now apply sameDetail_eq.
      * right. split; [assumption |].
        intros [Hin | [-> | []]]; [contradiction |].
        assert (T : Nlp.sameDetail d d = true) by now apply sameDetail_eq.
        congruence.
Qed.

Lemma firstOccurrences_NoDup (l seen : list Nlp.MatchDetail) :
  NoDup (Nlp.firstOccurrences seen l).
Proof.
  revert seen. induction l as [| v l IH]; intros seen; simpl.
  - constructor.
  - destruct (existsb (fun t => Nlp.sameDetail t v) seen); [apply IH |].
    constructor; [| apply IH].
    rewrite firstOccurrences_In, in_app_iff. simpl. tauto.
Qed.

End Occurrences.

Section ScorerResults.

Import JS.

Lemma formula_zero (n : nat) (sentiment : float) :
  (Spec.formula n sentiment = 0%Z <-> n = 0%nat)
  /\ (n <> 0%nat -> (2 <= Spec.formula n sentiment)%Z).
Proof.
  unfold Spec.formula. destruct n as [| n].
  - simpl. split; [tauto | congruence].
  - destruct ((0 <? S n)%nat && PrimFloat.ltb sentiment (-0.2)%float)%bool;
      split; try (split; [lia | discriminate]); intros _; lia.
Qed.

(** X1: an indicator scores 0 exactly when it has no match, and at least 2
    as soon as it has one. *)
Theorem score_zero_iff_no_match (text : string) :
  Forall (fun r => (Nlp.score r = 0%Z <-> Nlp.matches r = [])
                   /\ (Nlp.matches r <> [] -> (2 <= Nlp.score r)%Z))
         (Nlp.analyzeText text).
Proof.
  apply analyzeText_Forall. intros p. rewrite analyzeIndicator_score.
  destruct (formula_zero (length (Nlp.matches (Nlp.analyzeIndicator text p)))
                         (Nlp.analyzeSentiment text)) as [Hz Hp].
  split.
  - rewrite Hz. apply length_zero_iff_nil.
  - intros Hne. apply Hp. now rewrite length_zero_iff_nil.
Qed.

(** X2: [matches] and [matchDetails] tell of the same strings: a string is
    in [matches] exactly when some detail has it as its [original], and no
    two details have both the same [original] and the same [context]. *)
Theorem details_agree_with_matches (text : string) :
  Forall (fun r =>
            NoDup (Nlp.matchDetails r)
            /\ forall m, In m (Nlp.matches r)
                         <-> exists d, In d (Nlp.matchDetails r)
                                       /\ Nlp.original d = m)
         (Nlp.analyzeText text).
Proof.
  apply analyzeText_Forall. intros p. split.
  - apply firstOccurrences_NoDup.
  - intros m. rewrite analyzeIndicator_matches, setOf_In.
    unfold Spec.allMatches. rewrite <- details_originals, in_map_iff.
    unfold Nlp.analyzeIndicator. simpl. split.
    + intros [d [E H]]. exists d. split; [| assumption].
      apply firstOccurrences_In. now split.
    + intros [d [H E]]. exists d. split; [assumption |].
      now apply firstOccurrences_In in H.
Qed.

(** X3: every string in [matches] is an occurrence of a keyword of the
    indicator in the text: it stands in the text as it is spelled there,
    equals the lower-cased keyword when case is ignored, and is delimited by
    a word boundary on each side. *)
Theorem match_is_keyword_occurrence (text : string) :
  Forall (fun r =>
            forall m, In m (Nlp.matches r) ->
            exists keyword pre post,
              In keyword (Nlp.processedKeywords (Nlp.indicator r))
              /\ chars text = pre ++ chars m ++ post
              /\ map canonicalize (chars m) = map canonicalize (chars keyword)
              /\ Nlp.wordBoundary (Spec.lastChar pre)
                                  (hd_error (chars m ++ post)) = true
              /\ Nlp.wordBoundary (Spec.lastChar (pre ++ chars m))
                                  (hd_error post) = true)
         (Nlp.analyzeText text).
Proof.
  apply analyzeText_Forall. intros p m.
  rewrite analyzeIndicator_matches, setOf_In. unfold Spec.allMatches.
  intros H. apply in_flat_map in H. destruct H as [keyword [Hk H]].
  unfold Nlp.keywordMatches, Nlp.regexMatchAll in H.
  apply in_map_iff in H. destruct H as [[i m'] [E H]]. simpl in E. subst m'.
  destruct (regexExecAll_sound _ _ _ _ H) as [pre [post [Ht [_ Hrest]]]].
  exists keyword, pre, post. simpl. tauto.
Qed.

(** X4: the context of a detail is the matched string with up to 30
    characters of the text before it and up to 30 after it, fewer only where
    the text begins or ends. *)
Theorem detail_context_window (text : string) :
  Forall (fun r =>
            forall d, In d (Nlp.matchDetails r) ->
            exists pre post,
              chars text = pre ++ chars (Nlp.original d) ++ post
              /\ chars (Nlp.context d)
                 = Spec.lastn 30 pre ++ chars (Nlp.original d)
                   ++ firstn 30 post)
         (Nlp.analyzeText text).
Proof.
  apply analyzeText_Forall. intros p d H.
  unfold Nlp.analyzeIndicator in H. simpl in H.
  apply firstOccurrences_In in H. destruct H as [H _].
  apply in_flat_map in H. destruct H as [keyword [_ H]].
  destruct (keywordDetails_sound _ _ _ H) as [pre [post [Ht [_ [_ [_ Hc]]]]]].
  now exists pre, post.
Qed.

End ScorerResults.

(* ===================================================================== *)
(** ** The scorer and the labeler on the same text *)
(* ===================================================================== *)

Section ScorerAndLabeler.

Import JS.

Lemma allChars_In (c : ascii) : In c Spec.allChars.
Proof.
  unfold Spec.allChars. apply in_map_iff. exists (nat_of_ascii c). split.
  - apply ascii_nat_embedding.
  - apply in_seq. pose proof (nat_ascii_bounded c). lia.
Qed.

(** Two code units that a case-insensitive pattern identifies have the same
    lower case. *)
Lemma canonicalize_lowerChar (a b : ascii) :
  canonicalize a = canonicalize b -> lowerChar a = lowerChar b.
Proof.
  assert (T : forallb (fun a =>
                forallb (fun b =>
                  implb (Ascii.eqb (canonicalize a) (canonicalize b))
                        (Ascii.eqb (lowerChar a) (lowerChar b)))
                  Spec.allChars) Spec.allChars = true)
    by (vm_compute; reflexivity).
  rewrite forallb_forall in T. specialize (T a (allChars_In a)).
  rewrite forallb_forall in T. specialize (T b (allChars_In b)).
  intros E. apply Ascii.eqb_eq in E. rewrite E in T. simpl in T.
  now apply Ascii.eqb_eq.
Qed.

Lemma lowerChar_idempotent (c : ascii) : lowerChar (lowerChar c) = lowerChar c.
Proof.
  assert (T : forallb (fun c => Ascii.eqb (lowerChar (lowerChar c))
                                          (lowerChar c))
                      Spec.allChars = true)
    by (vm_compute; reflexivity).
  rewrite forallb_forall in T. apply Ascii.eqb_eq, T, allChars_In.
Qed.

Lemma map_canonicalize_lowerChar (a b : list ascii) :
  map canonicalize a = map canonicalize b -> map lowerChar a = map lowerChar b.
Proof.
  revert b. induction a as [| x a IH]; intros [| y b] E; simpl in *;
    try discriminate; [reflexivity |].
  injection E as Ex Er.
  now rewrite (canonicalize_lowerChar _ _ Ex), (IH _ Er).
Qed.

Lemma chars_toLowerCase (s : string) :
  chars (toLowerCase s) = map lowerChar (chars s).
Proof. unfold toLowerCase. apply chars_str. Qed.

Lemma toLowerCase_idempotent (s : string) :
  toLowerCase (toLowerCase s) = toLowerCase s.
Proof.
  unfold toLowerCase at 1. rewrite chars_toLowerCase, map_map.
  unfold toLowerCase. f_equal. apply map_ext. apply lowerChar_idempotent.
Qed.

Lemma isPrefix_app (sub post : list ascii) : isPrefix sub (sub ++ post) = true.
Proof.
  induction sub as [| c sub IH]; simpl; [reflexivity |].
  now rewrite Ascii.eqb_refl, IH.
Qed.

Lemma includesChars_app (pre sub post : list ascii) :
  includesChars (pre ++ sub ++ post) sub = true.
Proof.
  induction pre as [| c pre IH]; simpl.
  - pose proof (isPrefix_app sub post) as H.
    destruct (sub ++ post); simpl; now rewrite H.
  - rewrite IH. apply orb_true_r.
Qed.

(** A processed indicator is a static indicator with its keywords
    lower-cased. *)
Lemma processedIndicators_In (p : Nlp.ProcessedIndicator) :
  In p Nlp.processedIndicators ->
  In (Nlp.staticPart p) Indicators.INDICATORS
  /\ Nlp.processedKeywords p
     = map toLowerCase (Indicators.keywords (Nlp.staticPart p)).
Proof.
  unfold Nlp.processedIndicators, Nlp.prepareKeywords. intros H.
  apply in_map_iff in H. destruct H as [ind [<- Hin]]. simpl.
  split; [now destruct ind | reflexivity].
Qed.

Lemma analyzeText_Forall_In (P : Nlp.AnalysisResult -> Prop) (text : string) :
  (forall p, In p Nlp.processedIndicators -> P (Nlp.analyzeIndicator text p)) ->
  Forall P (Nlp.analyzeText text).
Proof.
  intros H. unfold Nlp.analyzeText.
  destruct (String.eqb text "" || (String.length (trim text) =? 0)%nat)%bool.
  - constructor.
  - apply Forall_forall. intros r Hr. apply in_map_iff in Hr.
    destruct Hr as [p [<- Hp]]. now apply H.
Qed.

(** A match of the scorer is a mention for the labeler. *)
Lemma match_mentions (text : string) (p : Nlp.ProcessedIndicator) (m : string) :
  In p Nlp.processedIndicators ->
  In m (Nlp.matches (Nlp.analyzeIndicator text p)) ->
  Spec.mentions text (Nlp.staticPart p).
Proof.
  intros Hp Hm. destruct (processedIndicators_In p Hp) as [_ Hk].
  rewrite analyzeIndicator_matches, setOf_In in Hm. unfold Spec.allMatches in Hm.
  apply in_flat_map in Hm. destruct Hm as [lowered [Hl Hm]].
  rewrite Hk in Hl. apply in_map_iff in Hl. destruct Hl as [keyword [<- Hin]].
  unfold Nlp.keywordMatches, Nlp.regexMatchAll in Hm.
  apply in_map_iff in Hm. destruct Hm as [[i m'] [E Hm]]. simpl in E. subst m'.
  destruct (regexExecAll_sound _ _ _ _ Hm) as [pre [post [Ht [_ [Hc _]]]]].
  exists keyword. split; [assumption |].
  unfold includes. rewrite !chars_toLowerCase, Ht, !map_app.
  apply map_canonicalize_lowerChar in Hc.
  rewrite Hc, chars_toLowerCase, map_map.
  rewrite (map_ext _ _ lowerChar_idempotent).
  apply includesChars_app.
Qed.

(** The scan finds an indicator no later than any indicator the sentence
    mentions. *)
Lemma scanIndicators_finds (sentence : string)
  (before after : list Indicators.Indicator) (ind : Indicators.Indicator) :
  Spec.mentions sentence ind ->
  forall i,
  exists j,
    PDFExtractor.scanIndicators sentence i (before ++ ind :: after) = Some j
    /\ (Z.of_nat i + 1 <= j <= Z.of_nat (i + length before) + 1)%Z.
Proof.
  intros Hm. induction before as [| b before IH]; intros i; simpl.
  - apply scanKeywords_mentions in Hm. rewrite Hm.
    eexists. split; [reflexivity | lia].
  - destruct (PDFExtractor.scanKeywords sentence (Indicators.keywords b)).
    + eexists. split; [reflexivity | lia].
    + destruct (IH (S i)) as [j [E Hj]]. exists j. split; [assumption | lia].
Qed.

(** X5: the word-boundary match of the scorer is stricter than the
    substring test of the labeler.  Whenever [analyzeText] finds a match for
    an indicator in a text, the labeler's scan of the same text finds an
    indicator, and the label it gives is at most the id of that
    indicator. *)
Theorem scorer_match_gives_label (text : string) :
  Forall (fun r =>
            Nlp.matches r <> [] ->
            Spec.mentions text (Nlp.staticPart (Nlp.indicator r))
            /\ exists j,
                 PDFExtractor.findIndicator text = Some j
                 /\ (1 <= j <= Nlp.id (Nlp.indicator r))%Z)
         (Nlp.analyzeText text).
Proof.
  apply analyzeText_Forall_In. intros p Hp Hne.
  change (Nlp.indicator (Nlp.analyzeIndicator text p)) with p.
  destruct (Nlp.matches (Nlp.analyzeIndicator text p)) as [| m ms] eqn:E;
    [congruence |].
  assert (Hm : Spec.mentions text (Nlp.staticPart p)).
  { apply (match_mentions text p m Hp). rewrite E. now left. }
  split; [exact Hm |].
  destruct (processedIndicators_In p Hp) as [Hin _].
  apply in_split in Hin. destruct Hin as [before [after Hs]].
  unfold PDFExtractor.findIndicator.
  change (firstn 4 Indicators.INDICATORS) with Indicators.INDICATORS.
  pose proof (static_id_position _ _ _ Hs) as Hid. rewrite Hs.
  destruct (scanIndicators_finds text before after _ Hm 0%nat) as [j [Ej Hj]].
  exists j. split; [assumption |].
  change (Nlp.id p) with (Indicators.id (Nlp.staticPart p)). lia.
Qed.

End ScorerAndLabeler.

(* ===================================================================== *)
(** ** Sentences *)
(* ===================================================================== *)

Section Sentences.

Import JS.
Import PDFExtractor.

Lemma dropWhile_split {A} (p : A -> bool) (l : list A) :
  exists leading,
    l = leading ++ dropWhile p l /\ Forall (fun x => p x = true) leading.
Proof.
  induction l as [| x l [leading [E H]]]; simpl.
  - exists []. now split.
  - destruct (p x) eqn:P.
    + exists (x :: leading). split; [simpl; now rewrite <- E | now constructor].
    + exists []. now split.
Qed.

Lemma Forall_rev_bool {A} (p : A -> Prop) (l : list A) :
  Forall p l -> Forall p (rev l).
Proof. intros H. apply Forall_forall. intros x Hx. apply in_rev in Hx.
  rewrite Forall_forall in H. now apply H. Qed.

Lemma rev_not_nil {A} (l : list A) : l <> [] -> rev l <> [].
Proof.
  intros H E. apply H. apply (f_equal (@rev A)) in E.
  now rewrite rev_involutive in E.
Qed.

(** The sentences found after [body] and [terms] have been read, together
    with what is lost: the terminators before the first sentence and the
    fragment after the last one. *)
Lemma sentenceRuns_spec (s : list ascii) :
  forall body terms,
    Forall (fun c => isTerminator c = false) body ->
    Forall (fun c => isTerminator c = true) terms ->
    (terms <> [] -> body <> []) ->
    (exists tail,
       match body with
       | [] => dropWhile isTerminator s
       | _ :: _ => rev body ++ rev terms ++ s
       end = concat (sentenceRuns body terms s) ++ tail
       /\ Forall (fun c => isTerminator c = false) tail)
    /\ Forall Spec.sentenceShape (sentenceRuns body terms s).
Proof.
  induction s as [| c r IH]; intros body terms Hb Ht Hbt.
  - simpl. destruct terms as [| t terms].
    + split; [| constructor]. destruct body as [| b body].
      * exists []. now split.
      * exists (rev (b :: body)).
        split; [simpl; now rewrite app_nil_r | now apply Forall_rev_bool].
    + assert (Hne : body <> []) by (apply Hbt; discriminate).
      split.
      * exists []. destruct body; [congruence |].
        simpl. now rewrite !app_nil_r.
      * constructor; [| constructor].
        exists (rev body), (rev (t :: terms)).
        repeat split; try (apply Forall_rev_bool; assumption).
        -- now apply rev_not_nil.
        -- apply rev_not_nil. discriminate.
  - simpl. destruct (isTerminator c) eqn:T.
    + destruct body as [| b body].
      * apply (IH [] []); [constructor | constructor | congruence].
      * destruct (IH (b :: body) (c :: terms)) as [[tail [E Htail]] Hs];
          [assumption | now constructor | discriminate |].
        split; [| exact Hs]. exists tail. split; [| exact Htail].
        rewrite <- E. simpl. now rewrite <- !app_assoc.
    + destruct terms as [| t terms].
      * destruct (IH (c :: body) []) as [[tail [E Htail]] Hs];
          [now constructor | constructor | congruence |].
        split; [| exact Hs]. exists tail. split; [| exact Htail].
        rewrite <- E. destruct body; simpl; [reflexivity |].
        now rewrite <- !app_assoc.
      * assert (Hne : body <> []) by (apply Hbt; discriminate).
        destruct (IH [c] []) as [[tail [E Htail]] Hs];
          [now repeat constructor | constructor | congruence |].
        split.
        -- exists tail. split; [| exact Htail].
           simpl concat. rewrite <- app_assoc, <- E.
           destruct body; [congruence |]. simpl.
           now rewrite <- !app_assoc.
        -- constructor; [| exact Hs].
           exists (rev body), (rev (t :: terms)).
           repeat split; try (apply Forall_rev_bool; assumption).
           ++ now apply rev_not_nil.
           ++ apply rev_not_nil. discriminate.
Qed.

(** X6: the sentences of a paragraph lie end to end in it.  The paragraph
    is made of terminators that come before any sentence, then the
    sentences one after the other, then a last fragment that holds no
    terminator; only that leading run and that last fragment are dropped.
    Every sentence is a run of code units other than [.], [!] and [?]
    followed by a run of these. *)
Theorem sentences_partition (paragraph : string) :
  (exists leading tail,
     chars paragraph
     = leading ++ concat (map chars (matchSentences paragraph)) ++ tail
     /\ Forall (fun c => isTerminator c = true) leading
     /\ Forall (fun c => isTerminator c = false) tail)
  /\ Forall (fun sentence => Spec.sentenceShape (chars sentence))
            (matchSentences paragraph).
Proof.
  destruct (sentenceRuns_spec (chars paragraph) [] [])
    as [[tail [E Htail]] Hs]; [constructor | constructor | congruence |].
  assert (M : map chars (matchSentences paragraph)
              = sentenceRuns [] [] (chars paragraph)).
  { unfold matchSentences. rewrite map_map.
    rewrite (map_ext _ (fun l => l) chars_str). apply map_id. }
  split.
  - destruct (dropWhile_split isTerminator (chars paragraph))
      as [leading [El Hl]].
    exists leading, tail. rewrite M, <- E. now repeat split.
  - unfold matchSentences. apply Forall_forall. intros sentence H.
    apply in_map_iff in H. destruct H as [l [<- Hl]].
    rewrite chars_str. rewrite Forall_forall in Hs. now apply Hs.
Qed.

End Sentences.

(* ===================================================================== *)
(** ** The labeler: where an example comes from *)
(* ===================================================================== *)

Section LabelerSound.

Import JS.
Import PDFExtractor.

Lemma forEach_In_inv {A} (body : nat -> A -> list LabeledExample * nat)
  (l : list A) (e : LabeledExample) :
  forall draws,
    In e (fst (forEach body draws l)) ->
    exists x d, In x l /\ In e (fst (body d x)).
Proof.
  induction l as [| y l IH]; intros draws H; [destruct H |].
  simpl in H. destruct (body draws y) as [pushed d1] eqn:E1.
  destruct (forEach body d1 l) as [pushed' d2] eqn:E2. simpl in H.
  apply in_app_or in H. destruct H as [H | H].
  - exists y, draws. split; [now left | now rewrite E1].
  - destruct (IH d1) as [x [d [Hx Hd]]]; [now rewrite E2 |].
    exists x, d. split; [now right | assumption].
Qed.

Lemma scanIndicators_range (sentence : string)
  (inds : list Indicators.Indicator) :
  forall i j,
    scanIndicators sentence i inds = Some j ->
    (Z.of_nat i + 1 <= j <= Z.of_nat (i + length inds))%Z.
Proof.
  induction inds as [| b inds IH]; intros i j H; simpl in H; [discriminate |].
  destruct (scanKeywords sentence (Indicators.keywords b)).
  - injection H as <-. simpl. lia.
  - apply IH in H. simpl. lia.
Qed.

Lemma findIndicator_range (sentence : string) (j : Z) :
  findIndicator sentence = Some j -> (1 <= j <= 4)%Z.
Proof.
  unfold findIndicator. intros H. apply scanIndicators_range in H.
  simpl in H. lia.
Qed.

(** What one sentence can push. *)
Lemma processSentence_sound (random : nat -> float) (draws : nat)
  (sentence : string) (e : LabeledExample) :
  In e (fst (processSentence random draws sentence)) ->
  (20 <= String.length (trim sentence))%nat
  /\ text e = trim sentence
  /\ ((exists j, findIndicator sentence = Some j
                 /\ (1 <= j <= 4)%Z
                 /\ label e = JsNumber (number j))
      \/ (findIndicator sentence = None
          /\ PrimFloat.ltb (random draws) 0.1%float = true
          /\ label e = JsNumber (number 0))).
Proof.
  unfold processSentence.
  destruct (String.length (trim sentence) <? 20)%nat eqn:L; [intros [] |].
  apply Nat.ltb_ge in L.
  destruct (findIndicator sentence) as [j |] eqn:F.
  - intros [<- | []]. repeat split; [assumption |].
    left. exists j. repeat split; try reflexivity;
      now apply (findIndicator_range sentence).
  - destruct (PrimFloat.ltb (random draws) 0.1%float) eqn:R; [| intros []].
    intros [<- | []]. repeat split; [assumption |]. now right.
Qed.

(** Where an example of the labeler comes from. *)
Lemma labeler_examples_origin (random : nat -> float) (extractedText : string)
  (examples : list LabeledExample) (e : LabeledExample) :
  extractTrainingData random extractedText = inr examples ->
  In e examples ->
  exists paragraph sentence,
    In paragraph (splitParagraphs extractedText)
    /\ (50 < String.length (trim paragraph))%nat
    /\ In sentence (matchSentences paragraph)
    /\ (20 <= String.length (trim sentence))%nat
    /\ text e = trim sentence
    /\ ((exists j, findIndicator sentence = Some j
                   /\ (1 <= j <= 4)%Z
                   /\ label e = JsNumber (number j))
        \/ (findIndicator sentence = None
            /\ (exists d, PrimFloat.ltb (random d) 0.1%float = true)
            /\ label e = JsNumber (number 0))).
Proof.
  unfold extractTrainingData.
  destruct (String.eqb extractedText ""
            || (String.length (trim extractedText) =? 0)%nat)%bool;
    [discriminate |].
  intros E He. injection E as <-.
  apply forEach_In_inv in He. destruct He as [paragraph [d [Hp He]]].
  unfold processParagraph in He.
  destruct (50 <? String.length (trim paragraph))%nat eqn:L; [| destruct He].
  apply Nat.ltb_lt in L.
  apply forEach_In_inv in He. destruct He as [sentence [d' [Hs He]]].
  apply processSentence_sound in He.
  destruct He as [Hlen [Htext Hlabel]].
  exists paragraph, sentence. repeat split; try assumption.
  destruct Hlabel as [Hl | [Hn [Hr Hl]]]; [now left | right].
  repeat split; try assumption. now exists d'.
Qed.

(** X7: every example the labeler returns comes from a sentence of at least
    20 characters, once trimmed, of a paragraph of more than 50: its text is
    that sentence trimmed, and its label is the number the scan of the
    indicators gives for the sentence, from 1 to 4, or 0 when the scan finds
    nothing and the random draw fell below 0.1. *)
Theorem labeler_examples_sound (random : nat -> float) (extractedText : string)
  (examples : list LabeledExample) (e : LabeledExample) :
  extractTrainingData random extractedText = inr examples ->
  In e examples ->
  exists paragraph sentence,
    In paragraph (splitParagraphs extractedText)
    /\ (50 < String.length (trim paragraph))%nat
    /\ In sentence (matchSentences paragraph)
    /\ (20 <= String.length (trim sentence))%nat
    /\ text e = trim sentence
    /\ ((exists j, findIndicator sentence = Some j
                   /\ (1 <= j <= 4)%Z
                   /\ label e = JsNumber (number j))
        \/ (findIndicator sentence = None
            /\ (exists d, PrimFloat.ltb (random d) 0.1%float = true)
            /\ label e = JsNumber (number 0))).
Proof. apply labeler_examples_origin. Qed.

Lemma labeler_examples_sound_witness :
  exists paragraph sentence,
    In paragraph (splitParagraphs Spec.longParagraph)
    /\ (50 < String.length (trim paragraph))%nat
    /\ In sentence (matchSentences paragraph)
    /\ (20 <= String.length (trim sentence))%nat
    /\ text (mkExample Spec.longParagraph (JsNumber 1%float)) = trim sentence
    /\ ((exists j, findIndicator sentence = Some j
                   /\ (1 <= j <= 4)%Z
                   /\ label (mkExample Spec.longParagraph (JsNumber 1%float))
                      = JsNumber (number j))
        \/ (findIndicator sentence = None
            /\ (exists d, PrimFloat.ltb ((fun _ : nat => 0%float) d) 0.1%float = true)
            /\ label (mkExample Spec.longParagraph (JsNumber 1%float))
               = JsNumber (number 0))).
Proof.
  apply (labeler_examples_sound (fun _ : nat => 0%float) Spec.longParagraph
           [mkExample Spec.longParagraph (JsNumber 1%float)]).
  - vm_compute. reflexivity.
  - now left.
Defined.

Lemma filter_all {A} (p : A -> bool) (l : list A) :
  Forall (fun x => p x = true) l -> filter p l = l.
Proof.
  induction 1 as [| x l Hx _ IH]; simpl; [reflexivity |].
  now rewrite Hx, IH.
Qed.

Lemma validItem_labeled (e : LabeledExample) (j : Z) :
  text e <> ""%string -> (0 <= j <= 4)%Z -> label e = JsNumber (number j) ->
  AuthoritarianClassifier.validItem e = true.
Proof.
  intros Ht Hj Hl. unfold AuthoritarianClassifier.validItem.
  rewrite Hl. destruct (String.eqb (text e) "") eqn:E.
  - apply String.eqb_eq in E. contradiction.
  - assert (C : (j = 0 \/ j = 1 \/ j = 2 \/ j = 3 \/ j = 4)%Z) by lia.
    destruct C as [-> | [-> | [-> | [-> | ->]]]]; reflexivity.
Qed.

Lemma labeler_examples_valid (random : nat -> float) (extractedText : string)
  (examples : list LabeledExample) :
  extractTrainingData random extractedText = inr examples ->
  Forall (fun e => AuthoritarianClassifier.validItem e = true) examples.
Proof.
  intros H. apply Forall_forall. intros e He.
  destruct (labeler_examples_origin _ _ _ _ H He)
    as [paragraph [sentence [_ [_ [_ [Hlen [Ht Hl]]]]]]].
  assert (Hne : text e <> ""%string).
  { rewrite Ht. intros E. rewrite E in Hlen. simpl in Hlen. lia. }
  destruct Hl as [[j [_ [Hj Hl]]] | [_ [_ Hl]]].
  - apply (validItem_labeled e j); [assumption | lia | assumption].
  - apply (validItem_labeled e 0); [assumption | lia | assumption].
Qed.

(** X8: the classifier accepts everything the labeler returns.  Adding the
    examples extracted from a text appends all of them, in order, to the
    training set, and the count returned grows by their number. *)
Theorem labeler_output_accepted {Model}
  (this : AuthoritarianClassifier.Classifier Model) (random : nat -> float)
  (extractedText : string) (examples : list LabeledExample) :
  extractTrainingData random extractedText = inr examples ->
  AuthoritarianClassifier.addTrainingData this examples
  = (AuthoritarianClassifier.mkClassifier
       (AuthoritarianClassifier.model this)
       (AuthoritarianClassifier.isModelReady this)
       (AuthoritarianClassifier.trainingData this ++ examples)
       (AuthoritarianClassifier.trainingStatus this),
     (length (AuthoritarianClassifier.trainingData this) + length examples)%nat).
Proof.
  intros H. unfold AuthoritarianClassifier.addTrainingData. simpl.
  rewrite (filter_all _ _ (labeler_examples_valid _ _ _ H)).
  now rewrite length_app.
Qed.

Lemma labeler_output_accepted_witness :
  AuthoritarianClassifier.addTrainingData
    (AuthoritarianClassifier.create Spec.uniformTf)
    [mkExample Spec.longParagraph (JsNumber 1%float)]
  = (AuthoritarianClassifier.mkClassifier
       (AuthoritarianClassifier.model
          (AuthoritarianClassifier.create Spec.uniformTf))
       (AuthoritarianClassifier.isModelReady
          (AuthoritarianClassifier.create Spec.uniformTf))
       (AuthoritarianClassifier.trainingData
          (AuthoritarianClassifier.create Spec.uniformTf)
        ++ [mkExample Spec.longParagraph (JsNumber 1%float)])
       (AuthoritarianClassifier.trainingStatus
          (AuthoritarianClassifier.create Spec.uniformTf)),
     (length (AuthoritarianClassifier.trainingData
                (AuthoritarianClassifier.create Spec.uniformTf))
      + length [mkExample Spec.longParagraph (JsNumber 1%float)])%nat).
Proof.
  apply (labeler_output_accepted
           (AuthoritarianClassifier.create Spec.uniformTf)
           (fun _ : nat => 0%float) Spec.longParagraph).
  vm_compute. reflexivity.
Defined.

End LabelerSound.

(* ===================================================================== *)
(** ** [extractTrainingData] of [src/nlp.ts] *)
(* ===================================================================== *)

Section NlpTrainingData.

Import JS.











End NlpTrainingData.

(* ===================================================================== *)
(** ** Comparisons of binary64 numbers *)
(* ===================================================================== *)

Section FloatOrder.

Import JS.

Lemma SFcompare_antisym (a b : spec_float) :
  SFcompare b a = option_map CompOpp (SFcompare a b).
Proof.
  destruct a as [sa | sa | | sa ma ea], b as [sb | sb | | sb mb eb];
    try destruct sa; try destruct sb; try reflexivity; simpl;
    rewrite (Z.compare_antisym eb ea);
    destruct (Z.compare eb ea) eqn:C; simpl; try reflexivity;
    change (Pos.compare_cont Eq ma mb) with (Pos.compare ma mb);
    change (Pos.compare_cont Eq mb ma) with (Pos.compare mb ma);
    rewrite (Pos.compare_antisym mb ma);
    try rewrite CompOpp_involutive; reflexivity.
Qed.

Lemma SFcompare_refl (a : spec_float) :
  SFcompare a a = None \/ SFcompare a a = Some Eq.
Proof.
  destruct a as [sa | sa | | sa ma ea]; try destruct sa; simpl; auto;
    rewrite Z.compare_refl;
    change (Pos.compare_cont Eq ma ma) with (Pos.compare ma ma);
    rewrite Pos.compare_refl; auto.
Qed.

(** [a < b] excludes [b <= a]. *)
Lemma ltb_not_leb (a b : float) :
  PrimFloat.ltb a b = true -> PrimFloat.leb b a = false.
Proof.
  rewrite ltb_spec, leb_spec. unfold SFltb, SFleb.
  rewrite (SFcompare_antisym (Prim2SF a) (Prim2SF b)).
  destruct (SFcompare (Prim2SF a) (Prim2SF b)) as [[| |] |];
    simpl; congruence.
Qed.

(** NaN compares with nothing. *)
Lemma isNaN_compare (x : float) :
  isNaN x = true -> forall y, SFcompare (Prim2SF y) (Prim2SF x) = None.
Proof.
  unfold isNaN. rewrite negb_true_iff, eqb_spec. unfold SFeqb. intros H y.
  assert (N : Prim2SF x = S754_nan).
  { destruct (Prim2SF x) as [sa | sa | | sa ma ea] eqn:E; try reflexivity;
      exfalso; destruct (SFcompare_refl (Prim2SF x)) as [R | R];
      rewrite E in R; rewrite R in H; try discriminate;
      destruct sa; discriminate R. }
  rewrite N. now destruct (Prim2SF y).
Qed.

Lemma isNaN_leb (x y : float) :
  isNaN x = true -> PrimFloat.leb y x = false /\ PrimFloat.leb x y = false.
Proof.
  intros H. rewrite !leb_spec. unfold SFleb.
  rewrite (SFcompare_antisym (Prim2SF y) (Prim2SF x)).
  now rewrite (isNaN_compare x H y).
Qed.


End FloatOrder.

(* ===================================================================== *)
(** ** The training set *)
(* ===================================================================== *)

Section TrainingSet.

Import JS.
Import AuthoritarianClassifier.

Context {Model : Type}.

Lemma classifier_eta (this : Classifier Model) :
  mkClassifier (model this) (isModelReady this) (trainingData this)
               (trainingStatus this) = this.
Proof. now destruct this. Qed.

(** X10: [addTrainingData] only ever appends.  The examples already held
    stay first and in order, the examples added are those of the argument
    that pass the validation, in the order of the argument; the count
    returned is the size of the training set afterwards, which grows by at
    most the number of examples given; the model is not touched; and adding
    two batches one after the other is adding them at once. *)
Theorem addTrainingData_appends (this : Classifier Model)
  (data more : list LabeledExample) :
  let after := fst (addTrainingData this data) in
  trainingData after = trainingData this ++ filter validItem data
  /\ snd (addTrainingData this data) = getTrainingDataSize after
  /\ (getTrainingDataSize this <= getTrainingDataSize after
      <= getTrainingDataSize this + length data)%nat
  /\ model after = model this
  /\ isModelReady after = isModelReady this
  /\ fst (addTrainingData after more) = fst (addTrainingData this (data ++ more)).
Proof.
  unfold addTrainingData, getTrainingDataSize. simpl.
  repeat split.
  - rewrite length_app. lia.
  - rewrite length_app. pose proof (filter_length_le validItem data). lia.
  - now rewrite filter_app, app_assoc.
Qed.

(** X11: [addTrainingData] rejects, without a word, an example whose text
    is empty, whose label is no number, or whose label is NaN, below 0 or
    above 4: the classifier stays as it was and the count returned is the
    size it had. *)
Theorem addTrainingData_rejects (this : Classifier Model)
  (item : LabeledExample) :
  (text item = ""%string
   \/ (forall x, label item <> JsNumber x)
   \/ exists x, label item = JsNumber x
                /\ (isNaN x = true
                    \/ PrimFloat.ltb x 0%float = true
                    \/ PrimFloat.ltb 4%float x = true)) ->
  addTrainingData this [item] = (this, getTrainingDataSize this).
Proof.
  intros H.
  assert (V : validItem item = false).
  { unfold validItem. destruct H as [-> | [H | [x [-> H]]]].
    - reflexivity.
    - destruct (label item) as [x | |]; try apply andb_false_r.
      now destruct (H x).
    - destruct H as [H | [H | H]].
      + destruct (isNaN_leb x 0%float H) as [-> _]. apply andb_false_r.
      + rewrite (ltb_not_leb _ _ H). apply andb_false_r.
      + rewrite (ltb_not_leb _ _ H), andb_false_r. apply andb_false_r. }
  unfold addTrainingData, getTrainingDataSize. simpl. rewrite V.
  rewrite app_nil_r. now rewrite classifier_eta.
Qed.

End TrainingSet.

Section TrainingSetInstances.

Import AuthoritarianClassifier.

Lemma addTrainingData_rejects_witness :
  addTrainingData (create Spec.uniformTf) [mkExample "x" (JsNumber 5%float)]
  = (create Spec.uniformTf, getTrainingDataSize (create Spec.uniformTf)).
Proof.
  apply (addTrainingData_rejects (create Spec.uniformTf)
           (mkExample "x" (JsNumber 5%float))).
  right. right. exists 5%float. split; [reflexivity |].
  right. right. reflexivity.
Defined.

End TrainingSetInstances.

(* ===================================================================== *)
(** ** The life of a classifier *)
(* ===================================================================== *)

Section Lifecycle.

Import JS.
Import AuthoritarianClassifier.

Context {Model : Type}.

Lemma buildSimpleModel_consistent (tf : TensorFlow Model) (this : Classifier Model) :
  Spec.consistent (buildSimpleModel tf this)
  /\ trainingData (buildSimpleModel tf this) = trainingData this.
Proof.
  unfold Spec.consistent, buildSimpleModel.
  destruct (sequentialSimple tf); simpl; auto.
Qed.

Lemma buildModel_consistent (tf : TensorFlow Model) (this : Classifier Model) :
  Spec.consistent (buildModel tf this)
  /\ trainingData (buildModel tf this) = trainingData this.
Proof.
  unfold buildModel. destruct (sequentialMain tf).
  - unfold Spec.consistent. simpl. auto.
  - apply buildSimpleModel_consistent.
Qed.

(** The classifier [train] works on once it has made sure of a model. *)
Lemma train_start (tf : TensorFlow Model) (this : Classifier Model) :
  let this1 := match model this, isModelReady this with
               | Some _, true => this
               | _, _ => buildModel tf this
               end in
  Spec.consistent this1 /\ trainingData this1 = trainingData this.
Proof.
  cbv zeta. destruct (model this) as [m |] eqn:Hm.
  - destruct (isModelReady this) eqn:Hr.
    + split; [| reflexivity]. unfold Spec.consistent. now rewrite Hm.
    + apply buildModel_consistent.
  - apply buildModel_consistent.
Qed.

(** Every way [train] can end. *)
Lemma train_cases (tf : TensorFlow Model) (epochs batchSize : Z)
  (this : Classifier Model) :
  let after := fst (train tf epochs batchSize this) in
  let result := snd (train tf epochs batchSize this) in
  trainingData after = trainingData this
  /\ Spec.consistent after
  /\ ((result = Threw notInitialized /\ model after = None)
      \/ (result = Threw notEnoughData
          /\ (length (trainingData this) < 10)%nat)
      \/ (result = History
          /\ (10 <= length (trainingData this))%nat
          /\ Spec.ready after = true
          /\ trainingStatus after = "Model trained successfully"%string)
      \/ (exists message,
            result = Threw ("Training failed: " ++ message)
            /\ (10 <= length (trainingData this))%nat
            /\ trainingStatus after = ("Training failed: " ++ message)%string
            /\ model after = sequentialSimple tf)).
Proof.
  cbv zeta. unfold train.
  destruct (train_start tf this) as [Hc Hd]. cbv zeta in Hc, Hd.
  set (this1 := match model this, isModelReady this with
                | Some _, true => this
                | _, _ => buildModel tf this
                end) in *.
  unfold Spec.consistent in Hc.
  destruct (model this1) as [m |] eqn:Hm.
  - rewrite Hd. destruct (length (trainingData this) <? 10)%nat eqn:L.
    + simpl. repeat split; [assumption | |].
      * unfold Spec.consistent. now rewrite Hm.
      * right. left. split; [reflexivity | now apply Nat.ltb_lt].
    + apply Nat.ltb_ge in L.
      destruct (fit tf m _ _ _ _) as [trained | message]; simpl.
      * repeat split; [assumption | |].
        -- unfold Spec.consistent. simpl. exact Hc.
        -- right. right. left. unfold Spec.ready. simpl. auto.
      * destruct (buildSimpleModel_consistent tf this1) as [Hs Hsd].
        repeat split.
        -- unfold setStatus. simpl. now rewrite Hsd.
        -- unfold Spec.consistent in *. unfold setStatus. simpl. exact Hs.
        -- right. right. right. exists message. repeat split; try assumption.
           unfold buildSimpleModel. now destruct (sequentialSimple tf).
  - simpl. repeat split; [assumption | |].
    + unfold Spec.consistent. now rewrite Hm.
    + left. now split.
Qed.

(** The invariant of the states a classifier can be in. *)
Lemma reachable_invariant (this : Classifier Model) :
  Spec.Reachable this ->
  Spec.consistent this /\ Forall (fun e => validItem e = true) (trainingData this).
Proof.
  induction 1 as [tf | this data _ [IHc IHd] | this tf epochs batchSize _ [IHc IHd]].
  - unfold create. destruct (buildModel_consistent tf initial) as [Hc Hd].
    split; [assumption |]. rewrite Hd. constructor.
  - unfold addTrainingData. simpl. split; [exact IHc |].
    apply Forall_app. split; [assumption |].
    apply Forall_forall. intros e He. now apply filter_In in He.
  - pose proof (train_cases tf epochs batchSize this) as T. cbv zeta in T.
    destruct T as [Hd [Hc _]]. split; [assumption | now rewrite Hd].
Qed.

(** X12: in every state a classifier can reach by construction, additions
    and trainings, whatever TensorFlow.js does, a model is present exactly
    when [isModelReady] is true, and every example of the training set has
    a text that is not empty and a label that is a number from 0 to 4. *)
Theorem reachable_classifier_invariant (this : Classifier Model) :
  Spec.Reachable this ->
  (isModelReady this = true <-> exists m, model this = Some m)
  /\ Forall (fun e => text e <> ""%string
                      /\ exists x, label e = JsNumber x
                                   /\ PrimFloat.leb 0%float x = true
                                   /\ PrimFloat.leb x 4%float = true)
            (trainingData this).
Proof.
  intros H. destruct (reachable_invariant this H) as [Hc Hv]. split.
  - unfold Spec.consistent in Hc. destruct (model this) as [m |].
    + split; [intros _; now exists m | intros _; exact Hc].
    + rewrite Hc. split; [discriminate | intros [m E]; discriminate E].
  - apply Forall_forall. intros e He. rewrite Forall_forall in Hv.
    specialize (Hv e He). unfold validItem in Hv.
    apply andb_true_iff in Hv. destruct Hv as [Ht Hl]. split.
    + intros E. rewrite E in Ht. discriminate Ht.
    + destruct (label e) as [x | |]; try discriminate Hl.
      apply andb_true_iff in Hl. exists x. tauto.
Qed.

(** X13: the ways [train] can end.  It never changes the training set.  It
    either fails because no model could be built, and then there is no
    model; or fails because fewer than 10 examples are held; or returns,
    which takes at least 10 examples and leaves a model that is ready and
    the status "Model trained successfully"; or fails with "Training
    failed: " followed by the message of the fit, which takes at least 10
    examples and leaves that same text as status and, as model, whatever
    the build of the fallback network gave. *)
Theorem train_outcomes (tf : TensorFlow Model) (epochs batchSize : Z)
  (this : Classifier Model) :
  let after := fst (train tf epochs batchSize this) in
  let result := snd (train tf epochs batchSize this) in
  trainingData after = trainingData this
  /\ ((result = Threw notInitialized /\ model after = None)
      \/ (result = Threw notEnoughData
          /\ (length (trainingData this) < 10)%nat)
      \/ (result = History
          /\ (10 <= length (trainingData this))%nat
          /\ Spec.ready after = true
          /\ trainingStatus after = "Model trained successfully"%string)
      \/ (exists message,
            result = Threw ("Training failed: " ++ message)
            /\ (10 <= length (trainingData this))%nat
            /\ trainingStatus after = ("Training failed: " ++ message)%string
            /\ model after = sequentialSimple tf)).
Proof.
  pose proof (train_cases tf epochs batchSize this) as T. cbv zeta in *.
  tauto.
Qed.

End Lifecycle.

Section LifecycleInstances.

Import AuthoritarianClassifier.

Lemma reachable_classifier_invariant_witness :
  (isModelReady
     (fst (train Spec.uniformTf 3 8
             (fst (addTrainingData (create Spec.brokenTf) Spec.nineExamples))))
   = true
   <-> exists m,
         model
           (fst (train Spec.uniformTf 3 8
                   (fst (addTrainingData (create Spec.brokenTf)
                                         Spec.nineExamples))))
         = Some m)
  /\ Forall (fun e => text e <> ""%string
                      /\ exists x, label e = JsNumber x
                                   /\ PrimFloat.leb 0%float x = true
                                   /\ PrimFloat.leb x 4%float = true)
            (trainingData
               (fst (train Spec.uniformTf 3 8
                       (fst (addTrainingData (create Spec.brokenTf)
                                             Spec.nineExamples))))).
Proof.
  apply (reachable_classifier_invariant
           (fst (train Spec.uniformTf 3 8
                   (fst (addTrainingData (create Spec.brokenTf)
                                         Spec.nineExamples))))).
  apply Spec.reach_train, Spec.reach_add, Spec.reach_create.
Defined.

End LifecycleInstances.

(* ===================================================================== *)
(** ** What a prediction reports *)
(* ===================================================================== *)

Section Predictions.

Import JS.
Import AuthoritarianClassifier.

Context {Model : Type}.

Lemma orZero_not_NaN (data : list float) (k : nat) :
  isNaN (orZero data k) = false.
Proof.
  unfold orZero. destruct (nth_error data k) as [x |]; [| reflexivity].
  destruct (isNaN x) eqn:N; simpl; [reflexivity |].
  destruct (PrimFloat.eqb x 0%float); [reflexivity | exact N].
Qed.





(** X14: the five probabilities [predict] reports are never NaN, whatever
    the state of the classifier and whatever the forward pass returns: an
    output that is NaN or missing is reported as 0. *)
Theorem predict_probabilities_not_NaN (tf : TensorFlow Model)
  (this : Classifier Model) (text : string) :
  isNaN (notAuthoritarian (predict tf this text)) = false
  /\ isNaN (indicator1 (predict tf this text)) = false
  /\ isNaN (indicator2 (predict tf this text)) = false
  /\ isNaN (indicator3 (predict tf this text)) = false
  /\ isNaN (indicator4 (predict tf this text)) = false.
Proof.
  unfold predict.
  destruct (model this) as [m |]; [| repeat split].
  destruct (isModelReady this); [| repeat split].
  destruct (predictData tf m (textToVector text)) as [data |];
    [| repeat split].
  simpl. repeat split; apply orZero_not_NaN.
Qed.


End Predictions.

Section PredictionInstances.

Import AuthoritarianClassifier.


End PredictionInstances.

(* ===================================================================== *)
(** ** What the vectorizer counts *)
(* ===================================================================== *)

Section Counting.

Import JS.
Import AuthoritarianClassifier.

Lemma getOwn_setOwn (wordCounts : WordCounts) (key word : string) (v : Slot) :
  getOwn (setOwn wordCounts key v) word
  = if String.eqb key word then Some v else getOwn wordCounts word.
Proof.
  induction wordCounts as [| [k old] r IH]; simpl.
  - reflexivity.
  - destruct (String.eqb k key) eqn:K; simpl.
    + apply String.eqb_eq in K. subst k.
      destruct (String.eqb key word); reflexivity.
    + rewrite IH. destruct (String.eqb k word) eqn:W; [| reflexivity].
      apply String.eqb_eq in W. subst k. rewrite String.eqb_sym in K.
      now rewrite K.
Qed.

(** Counting a word leaves the count of every other word alone. *)
Lemma countWord_other (wordCounts : WordCounts) (token word : string) :
  token <> word ->
  getOwn (countWord wordCounts token) word = getOwn wordCounts word.
Proof.
  intros Hne. unfold countWord, assign.
  destruct (2 <? String.length token)%nat; [| reflexivity].
  destruct (String.eqb token "__proto__"); [reflexivity |].
  rewrite getOwn_setOwn.
  destruct (String.eqb token word) eqn:E; [| reflexivity].
  apply String.eqb_eq in E. contradiction.
Qed.

Lemma countWord_same (wordCounts : WordCounts) (word : string) (n : nat) :
  (2 < String.length word)%nat ->
  word <> "constructor"%string -> word <> "__proto__"%string ->
  getOwn wordCounts word = Spec.counted n ->
  getOwn (countWord wordCounts word) word = Spec.counted (S n).
Proof.
  intros Hlen Hc Hp H. unfold countWord, assign.
  apply Nat.ltb_lt in Hlen. rewrite Hlen.
  apply String.eqb_neq in Hc, Hp. rewrite Hp.
  rewrite getOwn_setOwn, String.eqb_refl. unfold incremented.
  rewrite H, Hc, Hp. destruct n as [| n]; [reflexivity |].
  unfold Spec.counted. do 2 f_equal. lia.
Qed.

Lemma wordCounts_counted (tokens : list string) (word : string) :
  (2 < String.length word)%nat ->
  word <> "constructor"%string -> word <> "__proto__"%string ->
  forall wordCounts n,
    getOwn wordCounts word = Spec.counted n ->
    getOwn (fold_left countWord tokens wordCounts) word
    = Spec.counted (n + count_occ string_dec tokens word).
Proof.
  intros Hlen Hc Hp.
  induction tokens as [| t tokens IH]; intros wordCounts n H; simpl.
  - now rewrite Nat.add_0_r.
  - destruct (string_dec t word) as [-> | Hne].
    + rewrite (IH _ (S n)); [f_equal; lia |].
      now apply countWord_same.
    + apply IH. now rewrite countWord_other.
Qed.

Lemma wordCounts_never (tokens : list string) (word : string) :
  (String.length word <= 2)%nat \/ word = "__proto__"%string ->
  forall wordCounts,
    getOwn wordCounts word = None ->
    getOwn (fold_left countWord tokens wordCounts) word = None.
Proof.
  intros Hw. induction tokens as [| t tokens IH]; intros wordCounts H; simpl.
  - exact H.
  - apply IH. destruct (string_dec t word) as [-> | Hne].
    + unfold countWord, assign. destruct Hw as [Hw | ->].
      * apply Nat.ltb_ge in Hw. now rewrite Hw.
      * simpl. exact H.
    + now rewrite countWord_other.
Qed.

Lemma getOwn_In (wordCounts : WordCounts) (word : string) (v : Slot) :
  getOwn wordCounts word = Some v -> In (word, v) wordCounts.
Proof.
  induction wordCounts as [| [k old] r IH]; simpl; [discriminate |].
  destruct (String.eqb k word) eqn:E.
  - apply String.eqb_eq in E. intros H. injection H as <-. subst. now left.
  - intros H. right. now apply IH.
Qed.

Lemma insertByIndex_In_rev (i : N) (e : string * Slot)
  (l : list (N * (string * Slot))) (x : N * (string * Slot)) :
  x = (i, e) \/ In x l -> In x (insertByIndex i e l).
Proof.
  induction l as [| [j e'] r IH]; simpl.
  - intros [-> | []]. now left.
  - destruct (i <? j)%N; simpl.
    + intros [-> | H]; [now left | now right].
    + intros [-> | [<- | H]]; [right; apply IH; now left | now left |].
      right. apply IH. now right.
Qed.

Lemma indexed_In_rev (wordCounts : WordCounts) :
  forall acc x,
    In x acc
    \/ (In (snd x) wordCounts /\ arrayIndex (fst (snd x)) = Some (fst x)) ->
    In x (fold_left (fun acc e =>
                       match arrayIndex (fst e) with
                       | Some i => insertByIndex i e acc
                       | None => acc
                       end)
                    wordCounts acc).
Proof.
  induction wordCounts as [| e r IH]; intros acc x H; simpl.
  - destruct H as [H | [[] _]]. exact H.
  - apply IH. destruct H as [H | [[E | H] Hi]].
    + left. destruct (arrayIndex (fst e)); [| exact H].
      apply insertByIndex_In_rev. now right.
    + left. destruct x as [i e']. simpl in E, Hi. subst e'. rewrite Hi.
      apply insertByIndex_In_rev. now left.
    + right. now split.
Qed.

(** [Object.entries] lists every property of [wordCounts]. *)
Lemma entries_In_rev (wordCounts : WordCounts) (e : string * Slot) :
  In e wordCounts -> In e (entries wordCounts).
Proof.
  intros H. unfold entries, indexedEntries, namedEntries. apply in_or_app.
  destruct (arrayIndex (fst e)) as [i |] eqn:A.
  - left. apply in_map_iff. exists (i, e). split; [reflexivity |].
    apply indexed_In_rev. right. now split.
  - right. apply filter_In. split; [assumption | now rewrite A].
Qed.

(** X16: the vectorizer counts words.  For every word of more than two
    characters other than "constructor" and "__proto__", [wordCounts] holds
    the number of times the word occurs among the tokens of the text, and
    no property when it does not occur; a word that occurs is an entry of
    [Object.entries(wordCounts)] with that number.  Words of one or two
    characters and the word "__proto__" are never counted. *)
Theorem word_counts_are_occurrences (text word : string) :
  ((2 < String.length word)%nat ->
   word <> "constructor"%string -> word <> "__proto__"%string ->
   getOwn (wordCountsOf text) word
   = Spec.counted (count_occ string_dec (tokenize text) word)
   /\ (In word (tokenize text) ->
       In (word, Num (N.of_nat (count_occ string_dec (tokenize text) word)))
          (entries (wordCountsOf text))))
  /\ ((String.length word <= 2)%nat \/ word = "__proto__"%string ->
      getOwn (wordCountsOf text) word = None).
Proof.
  split.
  - intros Hlen Hc Hp.
    assert (G : getOwn (wordCountsOf text) word
                = Spec.counted (count_occ string_dec (tokenize text) word)).
    { unfold wordCountsOf.
      now rewrite (wordCounts_counted (tokenize text) word Hlen Hc Hp [] 0). }
    split; [exact G |]. intros Hin.
    apply (count_occ_In string_dec) in Hin.
    destruct (count_occ string_dec (tokenize text) word) as [| n] eqn:E;
      [lia |].
    apply entries_In_rev, getOwn_In. exact G.
  - intros Hw. unfold wordCountsOf. now apply wordCounts_never.
Qed.

Lemma tokenize_toLowerCase (text : string) :
  tokenize (toLowerCase text) = tokenize text.
Proof. unfold tokenize. now rewrite toLowerCase_idempotent. Qed.

Lemma scanKeywords_toLowerCase (sentence : string) (keywords : list string) :
  PDFExtractor.scanKeywords (toLowerCase sentence) keywords
  = PDFExtractor.scanKeywords sentence keywords.
Proof.
  induction keywords as [| k ks IH]; simpl; [reflexivity |].
  now rewrite toLowerCase_idempotent, IH.
Qed.

Lemma scanIndicators_toLowerCase (sentence : string)
  (inds : list Indicators.Indicator) :
  forall i,
    PDFExtractor.scanIndicators (toLowerCase sentence) i inds
    = PDFExtractor.scanIndicators sentence i inds.
Proof.
  induction inds as [| b inds IH]; intros i; simpl; [reflexivity |].
  now rewrite scanKeywords_toLowerCase, IH.
Qed.

(** X17: the vectorizer and the scan of the labeler ignore case, the
    Latin-1 letters included: a text and its lower-case form have the same
    tokens, the same vector and the same prediction, and the scan of the
    indicators gives the same label for both. *)
Theorem case_is_ignored {Model} (tf : TensorFlow Model)
  (this : Classifier Model) (text : string) :
  tokenize (toLowerCase text) = tokenize text
  /\ textToVector (toLowerCase text) = textToVector text
  /\ predict tf this (toLowerCase text) = predict tf this text
  /\ PDFExtractor.findIndicator (toLowerCase text)
     = PDFExtractor.findIndicator text.
Proof.
  assert (V : textToVector (toLowerCase text) = textToVector text).
  { unfold textToVector, wordCountsOf. now rewrite tokenize_toLowerCase. }
  repeat split.
  - apply tokenize_toLowerCase.
  - exact V.
  - unfold predict. now rewrite V.
  - apply scanIndicators_toLowerCase.
Qed.

End Counting.

(* ===================================================================== *)
(** ** Synthetic examples *)
(* ===================================================================== *)

Section Synthetic.

Import JS.
Import AuthoritarianClassifier.

Lemma findIndexFrom_spec {A} (p : A -> bool) (l : list A) :
  forall i,
    (findIndexFrom p l i = (-1)%Z /\ Forall (fun x => p x = false) l)
    \/ exists k x,
         findIndexFrom p l i = (i + Z.of_nat k)%Z
         /\ nth_error l k = Some x
         /\ p x = true
         /\ Forall (fun y => p y = false) (firstn k l).
Proof.
  induction l as [| y l IH]; intros i; simpl.
  - left. split; [reflexivity | constructor].
  - destruct (p y) eqn:E.
    + right. exists 0%nat, y. simpl.
      repeat split; [lia | assumption | constructor].
    + destruct (IH (i + 1)%Z) as [[Hn Hall] | [k [x [Hk [Hx [He Hf]]]]]].
      * left. split; [assumption | now constructor].
      * right. exists (S k), x. simpl. repeat split; try assumption; [lia |].
        now constructor.
Qed.

Lemma max_upper_bound (l : list Z) :
  forall x, Forall (fun y => (y <= fold_left Z.max l x)%Z) (x :: l).
Proof.
  induction l as [| y l IH]; intros x; simpl.
  - repeat constructor. lia.
  - specialize (IH (Z.max x y)). inversion IH as [| ? ? Hm Hl]; subst.
    constructor; [lia |]. constructor; [lia | assumption].
Qed.

Lemma mathMax_upper_bound (l : list Z) (m : Z) :
  mathMax l = Some m -> Forall (fun y => (y <= m)%Z) l.
Proof.
  destruct l as [| x l]; simpl; [discriminate |].
  intros E. injection E as <-. apply max_upper_bound.
Qed.

Lemma analyzeText_length (text : string) :
  (length (Nlp.analyzeText text) <= 4)%nat.
Proof.
  unfold Nlp.analyzeText.
  destruct (String.eqb text "" || (String.length (trim text) =? 0)%nat)%bool.
  - simpl. lia.
  - rewrite length_map. apply Nat.eq_le_incl. reflexivity.
Qed.

(** A label above 0 names the first indicator that reaches the highest
    score, and that score is at least 4. *)
Lemma syntheticLabel_spec (example : string) :
  (0 < syntheticLabel (Some example))%Z ->
  exists k r,
    syntheticLabel (Some example) = (Z.of_nat k + 1)%Z
    /\ (k < 4)%nat
    /\ nth_error (Nlp.analyzeText example) k = Some r
    /\ (4 <= Nlp.score r)%Z
    /\ Forall (fun r' => (Nlp.score r' <= Nlp.score r)%Z)
              (Nlp.analyzeText example)
    /\ Forall (fun r' => (Nlp.score r' < Nlp.score r)%Z)
              (firstn k (Nlp.analyzeText example)).
Proof.
  unfold syntheticLabel.
  destruct (mathMax (map Nlp.score (Nlp.analyzeText example)))
    as [maxScore |] eqn:M; [| lia].
  destruct (3 <? maxScore)%Z eqn:T; [| lia].
  apply Z.ltb_lt in T. intros Hpos.
  pose proof (mathMax_upper_bound _ _ M) as U.
  assert (U' : Forall (fun r' => (Nlp.score r' <= maxScore)%Z)
                      (Nlp.analyzeText example)).
  { apply Forall_forall. intros r' Hr'. rewrite Forall_forall in U.
    apply U. now apply in_map. }
  destruct (findIndexFrom_spec (fun a => (Nlp.score a =? maxScore)%Z)
              (Nlp.analyzeText example) 0)
    as [[E _] | [k [r [E [Hn [Hp Hf]]]]]]; [lia |].
  apply Z.eqb_eq in Hp. exists k, r. rewrite E, Hp.
  repeat split; try assumption; try lia.
  - pose proof (analyzeText_length example) as L.
    assert (k < length (Nlp.analyzeText example))%nat; [| lia].
    apply nth_error_Some. congruence.
  - apply Forall_forall. intros r' Hr'.
    assert (Hin : In r' (Nlp.analyzeText example)).
    { rewrite <- (firstn_skipn k). apply in_or_app. now left. }
    rewrite Forall_forall in U', Hf.
    specialize (U' r' Hin). specialize (Hf r' Hr'). simpl in Hf.
    apply Z.eqb_neq in Hf. lia.
Qed.

Lemma generateFrom_spec (choose : nat -> nat) (examples : list string)
  (rounds : nat) :
  forall i,
    (length (generateFrom choose examples i rounds) <= rounds)%nat
    /\ Forall (fun e =>
                 In (text e) examples
                 /\ (0 < syntheticLabel (Some (text e)))%Z
                 /\ label e = JsNumber (number (syntheticLabel (Some (text e)))))
              (generateFrom choose examples i rounds).
Proof.
  induction rounds as [| rounds IH]; intros i; simpl.
  - split; [lia | constructor].
  - destruct (IH (S i)) as [Hl Hf].
    destruct (nth_error examples (choose i)) as [e |] eqn:N.
    + destruct (0 <? syntheticLabel (Some e))%Z eqn:P.
      * simpl. split; [lia |]. constructor; [| assumption].
        simpl. repeat split.
        -- now apply nth_error_In in N.
        -- now apply Z.ltb_lt.
      * split; [lia | assumption].
    + split; [lia | assumption].
Qed.

(** X18: [generateSyntheticData] returns at most [count] examples and
    nothing when it is given no example.  Each example returned is one of
    the texts given, labeled with the rank, from 1 to 4, of the first
    indicator that reaches the highest score [analyzeText] gives for that
    text, and that score is at least 4. *)
Theorem synthetic_examples (choose : nat -> nat) (examples : list string)
  (count : nat) :
  (length (generateSyntheticData choose examples count) <= count)%nat
  /\ (examples = [] -> generateSyntheticData choose examples count = [])
  /\ Forall (fun e =>
               In (text e) examples
               /\ exists k r,
                    label e = JsNumber (number (Z.of_nat k + 1))
                    /\ (k < 4)%nat
                    /\ nth_error (Nlp.analyzeText (text e)) k = Some r
                    /\ (4 <= Nlp.score r)%Z
                    /\ Forall (fun r' => (Nlp.score r' <= Nlp.score r)%Z)
                              (Nlp.analyzeText (text e))
                    /\ Forall (fun r' => (Nlp.score r' < Nlp.score r)%Z)
                              (firstn k (Nlp.analyzeText (text e))))
            (generateSyntheticData choose examples count).
Proof.
  unfold generateSyntheticData.
  destruct (generateFrom_spec choose examples count 0) as [Hl Hf].
  split; [exact Hl |]. split.
  - intros ->. destruct (generateFrom choose [] 0 count) as [| e l] eqn:E;
      [reflexivity |].
    inversion Hf as [| ? ? [[] _] _].
  - apply Forall_forall. intros e He. rewrite Forall_forall in Hf.
    destruct (Hf e He) as [Hin [Hpos Hlabel]]. split; [assumption |].
    destruct (syntheticLabel_spec (text e) Hpos) as [k [r [E Hrest]]].
    exists k, r. rewrite Hlabel, E. tauto.
Qed.

End Synthetic.

(* ===================================================================== *)
(** ** The pages [extractText] reads *)
(* ===================================================================== *)

Section Pages.

Import JS.
Import PDFExtractor.

Lemma seq_from (a b : nat) : seq a b = map (Nat.add a) (seq 0 b).
Proof.
  induction a as [| a IH]; simpl.
  - symmetry. apply map_id.
  - rewrite <- seq_shift, IH, map_map. reflexivity.
Qed.

Lemma range_app (lo mid hi : Z) :
  (lo <= mid + 1)%Z -> (mid <= hi)%Z ->
  range lo mid ++ range (mid + 1) hi = range lo hi.
Proof.
  intros H1 H2. unfold range.
  replace (Z.to_nat (hi - lo + 1))
    with (Z.to_nat (mid - lo + 1) + Z.to_nat (hi - (mid + 1) + 1))%nat by lia.
  rewrite seq_app, map_app. apply f_equal.
  simpl. rewrite (seq_from (Z.to_nat (mid - lo + 1))), map_map.
  apply map_ext. intros k. lia.
Qed.

Lemma range_length (lo hi : Z) : length (range lo hi) = Z.to_nat (hi - lo + 1).
Proof. unfold range. now rewrite length_map, length_seq. Qed.

Lemma range_nat (k : nat) : range 0 (Z.of_nat k - 1) = map Z.of_nat (seq 0 k).
Proof.
  unfold range. replace (Z.to_nat (Z.of_nat k - 1 - 0 + 1)) with k by lia.
  apply map_ext. intros a. lia.
Qed.

Lemma totalBatches_bounds (s m : Z) :
  (BATCH_SIZE * totalBatches s m <= m - s + 1 + 2
   < BATCH_SIZE * totalBatches s m + BATCH_SIZE)%Z.
Proof.
  unfold totalBatches, BATCH_SIZE.
  pose proof (Z.div_mod (m - s + 1 + (3 - 1)) 3) as D.
  pose proof (Z.mod_pos_bound (m - s + 1 + (3 - 1)) 3) as B.
  lia.
Qed.

(** The first [k] batches read the pages from the first one up to the last
    page of the batch of rank [k - 1]. *)
Lemma batches_prefix (s m : Z) (k : nat) :
  (s <= m)%Z -> (Z.of_nat k <= totalBatches s m)%Z ->
  concat (map (batchPages s m) (map Z.of_nat (seq 0 k)))
  = range s (Z.min (s + BATCH_SIZE * Z.of_nat k - 1) m).
Proof.
  intros Hsm. pose proof (totalBatches_bounds s m) as T.
  unfold BATCH_SIZE in *.
  induction k as [| k IH]; intros Hk.
  - simpl concat. unfold range.
    replace (Z.to_nat (Z.min (s + 3 * Z.of_nat 0 - 1) m - s + 1)) with 0%nat
      by lia.
    reflexivity.
  - rewrite seq_S, !map_app, concat_app, IH by lia.
    change (concat (map (batchPages s m) (map Z.of_nat [(0 + k)%nat])))
      with (batchPages s m (Z.of_nat (0 + k)) ++ []).
    rewrite app_nil_r. unfold batchPages, BATCH_SIZE.
    transitivity
      (range s (s + 3 * Z.of_nat k - 1)
       ++ range (s + 3 * Z.of_nat k - 1 + 1)
                (Z.min (s + 3 * Z.of_nat (S k) - 1) m)).
    + f_equal; f_equal; lia.
    + apply range_app; lia.
Qed.

Lemma batches_cover (s m : Z) :
  (s <= m)%Z ->
  concat (map (batchPages s m) (range 0 (totalBatches s m - 1))) = range s m
  /\ Forall (fun b => (1 <= length b <= 3)%nat)
            (map (batchPages s m) (range 0 (totalBatches s m - 1))).
Proof.
  intros Hsm. pose proof (totalBatches_bounds s m) as T.
  unfold BATCH_SIZE in T.
  assert (E : totalBatches s m = Z.of_nat (Z.to_nat (totalBatches s m)))
    by lia.
  rewrite E, range_nat. split.
  - rewrite batches_prefix by lia. f_equal. unfold BATCH_SIZE. lia.
  - apply Forall_forall. intros b Hb. apply in_map_iff in Hb.
    destruct Hb as [z [<- Hz]]. apply in_map_iff in Hz.
    destruct Hz as [k [<- Hk]]. apply in_seq in Hk.
    unfold batchPages, BATCH_SIZE. rewrite range_length. lia.
Qed.

(** X19: the pages [extractText] reads.  Without a loaded PDF it fails.  A
    start page below 1 counts as 1, and an end page that is missing, 0 or
    beyond the last page counts as the last page.  When the start page so
    obtained is beyond the end page it fails; otherwise it reads every page
    from the start page to the end page exactly once, in order, in batches
    of one to three pages, and returns the texts of the pages of each batch
    joined by an empty line, the batches one after the other. *)
Theorem extractText_reads_each_page_once (doc : Document)
  (startPage : Z) (endPage : option Z) :
  extractText None startPage endPage = inl "No PDF loaded"%string
  /\ ((startPage <= 1)%Z ->
      extractText (Some doc) startPage endPage
      = extractText (Some doc) 1 endPage)
  /\ ((endPage = None \/ endPage = Some 0%Z
       \/ exists e, endPage = Some e /\ (numPages doc <= e)%Z) ->
      extractText (Some doc) startPage endPage
      = extractText (Some doc) startPage (Some (numPages doc)))
  /\ (forall e,
        endPage = Some e -> (1 <= startPage)%Z -> (e <= numPages doc)%Z ->
        e <> 0%Z ->
        if (e <? startPage)%Z
        then extractText (Some doc) startPage endPage
             = inl "Start page cannot be greater than end page"%string
        else exists batches,
               extractText (Some doc) startPage endPage
               = inr (String.concat ""
                        (map (fun batch =>
                                String.concat paragraphBreak
                                              (map (pageText doc) batch))
                             batches))
               /\ concat batches = range startPage e
               /\ Forall (fun b => (1 <= length b <= 3)%nat) batches).
Proof.
  split; [reflexivity |]. split; [| split].
  - intros H. unfold extractText.
    replace (Z.max 1 startPage) with (Z.max 1 1) by lia. reflexivity.
  - intros H. unfold extractText.
    assert (E : Z.min match endPage with
                      | Some e => if (e =? 0)%Z then numPages doc else e
                      | None => numPages doc
                      end (numPages doc)
                = Z.min (if (numPages doc =? 0)%Z then numPages doc
                         else numPages doc) (numPages doc)).
    { destruct (numPages doc =? 0)%Z;
        destruct H as [-> | [-> | [e [-> He]]]]; simpl; try lia;
        destruct (e =? 0)%Z; lia. }
    now rewrite E.
  - intros e -> Hs He Hz. unfold extractText.
    apply Z.eqb_neq in Hz. rewrite Hz.
    replace (Z.min e (numPages doc)) with e by lia.
    replace (Z.max 1 startPage) with startPage by lia.
    destruct (e <? startPage)%Z eqn:L; [reflexivity |].
    apply Z.ltb_ge in L.
    destruct (batches_cover startPage e L) as [Hc Hf].
    eexists. split; [| split; [exact Hc | exact Hf]].
    now rewrite map_map.
Qed.

End Pages.

(* ===================================================================== *)
(** ** The batches [storeTrainingData] inserts *)
(* ===================================================================== *)

Section Storage.

Import JS.
Import MlStorage.

Lemma batchesFrom_spec {A} (data : list A) (fuel : nat) :
  forall i,
    (length data - i <= fuel)%nat ->
    concat (batchesFrom fuel data i) = skipn i data
    /\ Forall (fun b => (1 <= length b <= 100)%nat) (batchesFrom fuel data i).
Proof.
  induction fuel as [| fuel IH]; intros i H; simpl.
  - split; [| constructor]. symmetry. apply skipn_all2. lia.
  - destruct (i <? length data)%nat eqn:L.
    + apply Nat.ltb_lt in L. unfold BATCH_SIZE in *.
      destruct (IH (i + 100)%nat) as [Hc Hf]; [lia |].
      split.
      * simpl. rewrite Hc. unfold slice.
        replace (i + 100 - i)%nat with 100%nat by lia.
        rewrite Nat.add_comm, <- skipn_skipn. apply firstn_skipn.
      * constructor; [| exact Hf]. unfold slice.
        rewrite length_firstn, length_skipn. lia.
    + apply Nat.ltb_ge in L. split; [| constructor].
      symmetry. apply skipn_all2. lia.
Qed.

Lemma insertAll_spec {A} (accepts : nat -> bool) (bs : list (list A)) :
  forall k,
    ((forall j, (j < length bs)%nat -> accepts (k + j)%nat = true) ->
     insertAll accepts k bs = (bs, true))
    /\ (forall n, (n < length bs)%nat ->
                  accepts (k + n)%nat = false ->
                  (forall j, (j < n)%nat -> accepts (k + j)%nat = true) ->
                  insertAll accepts k bs = (firstn n bs, false)).
Proof.
  induction bs as [| b bs IH]; intros k; simpl.
  - split; [reflexivity | intros n Hn; lia].
  - destruct (IH (S k)) as [Hall Hfirst]. split.
    + intros H. rewrite <- (Nat.add_0_r k) at 1. rewrite (H 0%nat) by lia.
      rewrite Hall; [reflexivity |].
      intros j Hj. replace (S k + j)%nat with (k + S j)%nat by lia.
      apply H. lia.
    + intros n Hn Hrefused Hbefore. destruct n as [| n].
      * rewrite Nat.add_0_r in Hrefused. now rewrite Hrefused.
      * rewrite <- (Nat.add_0_r k) at 1. rewrite (Hbefore 0%nat) by lia.
        rewrite (Hfirst n); [reflexivity | lia | |].
        -- now replace (S k + n)%nat with (k + S n)%nat by lia.
        -- intros j Hj. replace (S k + j)%nat with (k + S j)%nat by lia.
           apply Hbefore. lia.
Qed.

(** X20: [storeTrainingData] cuts the examples into batches of 1 to 100
    that, put end to end, are the examples in their order.  When every
    insertion goes through, all the batches are stored; when the insertion
    of a batch is refused, the call fails and the batches inserted before
    it stay in the table. *)
Theorem storeTrainingData_batches {A} (accepts : nat -> bool) (data : list A) :
  concat (batches data) = data
  /\ Forall (fun b => (1 <= length b <= 100)%nat) (batches data)
  /\ ((forall j, (j < length (batches data))%nat -> accepts j = true) ->
      storeTrainingData accepts data = (batches data, true))
  /\ (forall n, (n < length (batches data))%nat ->
                accepts n = false ->
                (forall j, (j < n)%nat -> accepts j = true) ->
                storeTrainingData accepts data
                = (firstn n (batches data), false)).
Proof.
  unfold batches, storeTrainingData, batches.
  destruct (batchesFrom_spec data (length data) 0) as [Hc Hf]; [lia |].
  destruct (insertAll_spec accepts (batchesFrom (length data) data 0) 0)
    as [Hall Hfirst].
  repeat split; try assumption.
Qed.

End Storage.

(* ===================================================================== *)
(** ** Sentiment and the boost *)
(* ===================================================================== *)

Section Sentiment.

Import JS.

Lemma sentiment_neutral_words (words : list string) :
  Forall (fun w => arrayIncludes Nlp.positiveWords w = false
                   /\ arrayIncludes Nlp.negativeWords w = false) words ->
  forall score, fold_left Nlp.sentimentStep words score = score.
Proof.
  induction 1 as [| w words [Hp Hn] _ IH]; intros score; simpl.
  - reflexivity.
  - unfold Nlp.sentimentStep at 2. rewrite Hp, Hn. apply IH.
Qed.

(** X21: a text none of whose words belongs to the positive or to the
    negative lexicon has sentiment 0, and so never gets the extra point: the
    score of every indicator is [min(10, 2 * n)] for its [n] distinct
    matches. *)
Theorem neutral_text_no_boost (text : string) :
  Forall (fun w => arrayIncludes Nlp.positiveWords w = false
                   /\ arrayIncludes Nlp.negativeWords w = false)
         (splitOn (fun c => negb (isWordChar c)) (toLowerCase text)) ->
  Nlp.analyzeSentiment text = 0%float
  /\ Forall (fun r => Nlp.score r
                      = Z.min 10 (2 * Z.of_nat (length (Nlp.matches r))))
            (Nlp.analyzeText text).
Proof.
  intros H.
  assert (S0 : Nlp.analyzeSentiment text = 0%float).
  { unfold Nlp.analyzeSentiment. cbv zeta.
    rewrite (sentiment_neutral_words _ H). reflexivity. }
  split; [exact S0 |].
  apply analyzeText_Forall. intros p.
  rewrite analyzeIndicator_score, S0. unfold Spec.formula.
  change (PrimFloat.ltb 0%float (-0.2)%float) with false.
  rewrite andb_false_r. f_equal. lia.
Qed.

Lemma neutral_text_no_boost_witness :
  Nlp.analyzeSentiment "A military coup" = 0%float
  /\ Forall (fun r => Nlp.score r
                      = Z.min 10 (2 * Z.of_nat (length (Nlp.matches r))))
            (Nlp.analyzeText "A military coup").
Proof.
  apply (neutral_text_no_boost "A military coup").
  vm_compute. repeat constructor.
Defined.

End Sentiment.

(* ===================================================================== *)
(** ** Paragraphs *)
(* ===================================================================== *)

Section Paragraphs.

Import JS.
Import PDFExtractor.

(** Passing over [skip] code units, then splitting. *)
Lemma splitParagraphRuns_skip (s : list ascii) :
  forall skip acc,
    splitParagraphRuns skip acc s = splitParagraphRuns 0 acc (skipn skip s).
Proof.
  induction s as [| c r IH]; intros skip acc.
  - now destruct skip.
  - destruct skip as [| k]; [reflexivity |]. simpl. apply IH.
Qed.

(** Where a separator ends: after a line feed that only white space
    separates from the position the search started at. *)
Lemma separatorEnd_spec (s : list ascii) :
  forall pos best n,
    separatorEnd s pos best = Some n ->
    best = Some n
    \/ exists blank rest,
         s = blank ++ newline :: rest
         /\ Forall (fun c => isWhiteSpace c = true) blank
         /\ n = (pos + length blank + 1)%nat.
Proof.
  induction s as [| c r IH]; intros pos best n H; simpl in H.
  - now left.
  - destruct (isWhiteSpace c) eqn:W; [| now left].
    apply IH in H. destruct H as [H | [blank [rest [-> [Hb ->]]]]].
    + destruct (Ascii.eqb c newline) eqn:E; [| now left].
      apply Ascii.eqb_eq in E. subst c. injection H as <-.
      right. exists [], r. repeat split; [constructor | simpl; lia].
    + right. exists (c :: blank), rest.
      repeat split; [now constructor | simpl; lia].
Qed.

Lemma splitParagraphRuns_spec (n : nat) :
  forall s acc,
    (length s <= n)%nat ->
    exists separators,
      length (splitParagraphRuns 0 acc s) = S (length separators)
      /\ Spec.weave (splitParagraphRuns 0 acc s) separators = rev acc ++ s
      /\ Forall Spec.separatorShape separators.
Proof.
  induction n as [| n IH]; intros s acc Hn.
  - destruct s; [| simpl in Hn; lia].
    exists []. simpl. rewrite app_nil_r. repeat split. constructor.
  - destruct s as [| c r].
    + exists []. simpl. rewrite app_nil_r. repeat split. constructor.
    + simpl in Hn.
      assert (Keep : exists separators,
                length (splitParagraphRuns 0 (c :: acc) r)
                = S (length separators)
                /\ Spec.weave (splitParagraphRuns 0 (c :: acc) r) separators
                   = rev acc ++ c :: r
                /\ Forall Spec.separatorShape separators).
      { destruct (IH r (c :: acc)) as [seps [Hl [Hw Hs]]]; [lia |].
        exists seps. repeat split; try assumption.
        rewrite Hw. simpl. now rewrite <- app_assoc. }
      simpl. destruct (Ascii.eqb c newline) eqn:E; [| exact Keep].
      destruct (separatorEnd r 0 None) as [k |] eqn:S; [| exact Keep].
      apply Ascii.eqb_eq in E. subst c.
      apply separatorEnd_spec in S.
      destruct S as [S | [blank [rest [-> [Hb ->]]]]]; [discriminate S |].
      rewrite splitParagraphRuns_skip.
      replace (skipn (0 + length blank + 1) (blank ++ newline :: rest))
        with rest.
      * destruct (IH rest []) as [seps [Hl [Hw Hs]]].
        { rewrite length_app in Hn. simpl in Hn. lia. }
        exists ((newline :: blank ++ [newline]) :: seps).
        simpl. repeat split.
        -- now rewrite Hl.
        -- destruct (splitParagraphRuns 0 [] rest) as [| p ps] eqn:P;
             [discriminate Hl |].
           rewrite Hw. simpl. now rewrite <- !app_assoc.
        -- constructor; [| assumption]. now exists blank.
      * replace (0 + length blank + 1)%nat with (length (blank ++ [newline]))
          by (rewrite length_app; simpl; lia).
        replace (blank ++ newline :: rest) with ((blank ++ [newline]) ++ rest)
          by now rewrite <- app_assoc.
        now rewrite skipn_app, skipn_all, Nat.sub_diag.
Qed.

(** X22: splitting into paragraphs loses nothing but the separators.  The
    text is its paragraphs put back together with, between each and the
    next, a separator made of a line feed, white space and a line feed;
    there is always at least one paragraph. *)
Theorem paragraphs_partition (extractedText : string) :
  exists separators,
    length (splitParagraphs extractedText) = S (length separators)
    /\ Spec.weave (map chars (splitParagraphs extractedText)) separators
       = chars extractedText
    /\ Forall Spec.separatorShape separators.
Proof.
  destruct (splitParagraphRuns_spec (length (chars extractedText))
              (chars extractedText) []) as [seps [Hl [Hw Hs]]]; [lia |].
  exists seps. unfold splitParagraphs. rewrite length_map, map_map.
  rewrite (map_ext _ (fun l => l) chars_str), map_id.
  repeat split; assumption.
Qed.

End Paragraphs.
